(** * CasePulse backend: dispatcher and change-detection monitor

    A shallow embedding of [main.py]: the three date helpers, the two
    search dispatchers ([search_cases], [search_cases_range]), the
    top-court monitor ([supreme_monitor]), the regional status monitor
    ([delhi_monitor]), the regulatory-commission search ([cerc_search])
    and the saved-monitor listing ([list_saved_monitors]).

    Modelling conventions.
    - A Python [str] is a [string]; each character stands for the code
      point of the same number (0..255).  In that range the decimal digits
      are exactly '0'..'9' and the white space of [str.strip] is the set
      given by [PyStr.isspace].
    - A Python exception is a value of [exn]; every constructor is a
      subclass of [Exception], which is what the handlers of [main.py]
      catch.  Interrupts and task cancellation are outside the model.
    - The scraper modules are not part of [main.py]: they are an oracle
      [adapter] over an abstract [World], called through [invoke], which
      also appends the call to a trace.  A scraper call returns a list of
      records or raises.
    - The file system ([Fs]) has a working directory, the files, each at a
      location (the names from the root down) with the list of records
      that [json.load] reads from it, and the directories: the ancestors
      of the working directory, the two directories that [main.py] makes
      when it is loaded, and every directory with a file beneath it.  A
      path is resolved the POSIX way ("." and ".." and repeated slashes,
      relative to the working directory unless it starts with a slash), so
      that several paths name one file.  Opening a path for writing fails
      when a directory on the way is missing, when the path names a
      directory, or when the operating system refuses to create the file
      (the oracle [Fs.refuses]: a name that is too long or holds a NUL, a
      directory that may not be written to).  Links, other empty
      directories, permissions of existing files and changes made by
      other processes are outside the model; reading back what
      [json.dump] wrote is the identity.
    - [print] calls are not modelled. *)

From stdpp Require Import gmap strings list fin_maps sorting.
From Stdlib Require Import Ascii String.

#[local] Set Warnings "-abstract-large-number".
Local Open Scope string_scope.
Local Open Scope list_scope.
Local Open Scope nat_scope.

(** ** Exceptions and outcomes *)

Inductive exn : Type :=
  | ValueError (msg : string)
  | IndexError (msg : string)
  | OSError (msg : string)
  | AdapterError (cause : string).

Inductive outcome (A : Type) : Type :=
  | Ret (a : A)
  | Raise (e : exn).
Arguments Ret {A} a.
Arguments Raise {A} e.

Definition is_ret {A} (o : outcome A) : bool :=
  match o with Ret _ => true | Raise _ => false end.

(** What a guarded backend call adds to [results]: its records, or nothing
    when it raised. *)
Definition contribution {A} (o : outcome (list A)) : list A :=
  match o with Ret l => l | Raise _ => [] end.

(** ** The platform

    [strftime] hands [%Y] to the C library.  For a year below 1000 some
    platforms print it zero padded to four digits and some print it as it
    is ("999"); which one is a parameter of the development. *)
Class Platform : Type := { pads_year : bool }.

(** ** Python string operations used by [main.py] *)

Module PyStr.

(** [c in s] for a one-character [c]. *)
Fixpoint contains (c : ascii) (s : string) : bool :=
  match s with
  | EmptyString => false
  | String a s' => Ascii.eqb a c || contains c s'
  end.

(** [str.isspace] on code points below 256. *)
Definition isspace (c : ascii) : bool :=
  let n := nat_of_ascii c in
  (((9 <=? n) && (n <=? 13)) || ((28 <=? n) && (n <=? 32))
   || (n =? 133) || (n =? 160))%nat.

Fixpoint lstrip (s : string) : string :=
  match s with
  | EmptyString => EmptyString
  | String a s' => if isspace a then lstrip s' else s
  end.

Fixpoint rstrip (s : string) : string :=
  match s with
  | EmptyString => EmptyString
  | String a s' =>
      match rstrip s' with
      | EmptyString => if isspace a then EmptyString else String a EmptyString
      | r => String a r
      end
  end.

(** [s.strip()] *)
Definition strip (s : string) : string := rstrip (lstrip s).

(** [s.replace(x, y)] for one-character [x] and [y]. *)
Fixpoint replace (x y : ascii) (s : string) : string :=
  match s with
  | EmptyString => EmptyString
  | String a s' => String (if Ascii.eqb a x then y else a) (replace x y s')
  end.

Definition startswith (c : ascii) (s : string) : bool :=
  match s with
  | String a _ => Ascii.eqb a c
  | EmptyString => false
  end.

Fixpoint endswith (c : ascii) (s : string) : bool :=
  match s with
  | EmptyString => false
  | String a EmptyString => Ascii.eqb a c
  | String _ s' => endswith c s'
  end.

(** [s.endswith(suffix)] *)
Definition endswith_str (suffix s : string) : bool :=
  let n := String.length s in
  let k := String.length suffix in
  (k <=? n) && String.eqb (String.substring (n - k) k s) suffix.

(** Truth value of a string: empty is false. *)
Definition truthy (s : string) : bool :=
  match s with EmptyString => false | _ => true end.

Definition all_space (s : string) : Prop :=
  Forall (fun c => isspace c = true) (list_ascii_of_string s).

End PyStr.

(** [os.path.join(a, b)] on POSIX for a non-empty [a]: an absolute [b]
    discards [a]. *)
Definition path_join (a b : string) : string :=
  if PyStr.startswith "/" b then b
  else if PyStr.endswith "/" a then a +:+ b
  else a +:+ "/" +:+ b.

(** The name directly under [dir] that a path "dir/name" or
    "dir/name/..." goes through. *)
Fixpoint strip_prefix (pre s : string) : option string :=
  match pre, s with
  | EmptyString, _ => Some s
  | String a pre', String b s' =>
      if Ascii.eqb a b then strip_prefix pre' s' else None
  | String _ _, EmptyString => None
  end.

Fixpoint first_component (s : string) : string :=
  match s with
  | EmptyString => EmptyString
  | String a s' =>
      if Ascii.eqb a "/" then EmptyString else String a (first_component s')
  end.

Definition dir_entry (dir path : string) : option string :=
  match strip_prefix (dir +:+ "/") path with
  | Some rest =>
      match first_component rest with
      | EmptyString => None
      | name => Some name
      end
  | None => None
  end.

(** The order of [sorted] on strings: by code point, a prefix first. *)
Definition str_le : relation string := fun a b => String.leb a b = true.

#[global] Instance str_le_dec : RelDecision str_le.
Proof. intros a b. unfold str_le. apply _. Defined.

(** ** The file system *)

Definition DATA_DIR : string := "monitor_data".
Definition DOWNLOAD_DIR : string := "downloaded_judgments".

Module Fs.

(** A location is the list of names from the root down.  [cwd] is the
    working directory of the process, [entries] the files, and [refuses]
    the error, if any, with which the operating system answers the
    creation of a file at a path whose directory exists. *)
Record t (V : Type) : Type :=
  { cwd : list string;
    entries : gmap (list string) V;
    refuses : string -> option exn }.
Arguments cwd {V} _.
Arguments entries {V} _.
Arguments refuses {V} _ _.

Inductive node (V : Type) : Type :=
  | File (v : V)
  | Dir
  | Missing.
Arguments File {V} v.
Arguments Dir {V}.
Arguments Missing {V}.

(** The components of a path: the text between the slashes. *)
Fixpoint components (s : string) : list string :=
  match s with
  | EmptyString => [EmptyString]
  | String a s' =>
      if Ascii.eqb a "/" then EmptyString :: components s'
      else
        match components s' with
        | c :: cs => String a c :: cs
        | [] => [String a EmptyString]
        end
  end.

(** The path that spells a list of names. *)
Fixpoint join (names : list string) : string :=
  match names with
  | [] => EmptyString
  | [a] => a
  | a :: rest => a +:+ String "/" (join rest)
  end.

Definition special (c : string) : bool :=
  String.eqb c "" || String.eqb c "." || String.eqb c "..".

(** The names a directory entry can have. *)
Definition valid_name (c : string) : bool :=
  negb (special c) && negb (PyStr.contains "/" c).

Fixpoint drop_prefix (L K : list string) : option (list string) :=
  match L, K with
  | [], _ => Some K
  | a :: L', b :: K' => if String.eqb a b then drop_prefix L' K' else None
  | _ :: _, [] => None
  end.

(** [K] lies beneath [L]. *)
Definition beneath (L K : list string) : bool :=
  match drop_prefix L K with
  | Some (c :: r) => forallb valid_name (c :: r)
  | _ => false
  end.

(** [os.makedirs(DATA_DIR, exist_ok=True)] and the same for
    [DOWNLOAD_DIR], run when [main.py] is loaded. *)
Definition made_at_startup {V} (fs : t V) : list (list string) :=
  [cwd fs ++ [DATA_DIR]; cwd fs ++ [DOWNLOAD_DIR]].

Definition is_dir {V} (fs : t V) (L : list string) : bool :=
  bool_decide (is_Some (drop_prefix L (cwd fs)))
  || bool_decide (L ∈ made_at_startup fs)
  || existsb (beneath L) (map_to_list (entries fs)).*1.

(** Follow the components [cs] from the directory [cur]. *)
Fixpoint walk {V} (fs : t V) (cur : list string) (cs : list string)
  : option (list string) :=
  match cs with
  | [] => Some cur
  | c :: cs' =>
      if String.eqb c "" || String.eqb c "." then walk fs cur cs'
      else if String.eqb c ".." then walk fs (removelast cur) cs'
      else if is_dir fs (cur ++ [c]) then walk fs (cur ++ [c]) cs'
      else None
  end.

(** The directory a path leads to and its last component. *)
Definition resolve {V} (fs : t V) (p : string)
  : option (list string * string) :=
  let cs := components p in
  match walk fs (if PyStr.startswith "/" p then [] else cwd fs)
             (removelast cs) with
  | Some d => Some (d, List.last cs EmptyString)
  | None => None
  end.

(** The location a path names, when it can name a file. *)
Definition target {V} (fs : t V) (p : string) : option (list string) :=
  match resolve fs p with
  | Some (d, c) => if special c then None else Some (d ++ [c])
  | None => None
  end.

(** What is at a path: [os.path.exists(p)] is [stat fs p <> Missing]. *)
Definition stat {V} (fs : t V) (p : string) : node V :=
  if PyStr.truthy p then
    match resolve fs p with
    | None => Missing
    | Some (d, c) =>
        if special c then Dir
        else
          match entries fs !! (d ++ [c]) with
          | Some v => File v
          | None => if is_dir fs (d ++ [c]) then Dir else Missing
          end
    end
  else Missing.

Definition put {V} (L : list string) (v : V) (fs : t V) : t V :=
  {| cwd := cwd fs; entries := <[L := v]> (entries fs);
     refuses := refuses fs |}.

(** [open(p, "w")] followed by writing [v] and closing: the file system
    after it, or the error of [open]. *)
Definition open_w {V} (fs : t V) (p : string) (v : V) : outcome (t V) :=
  if PyStr.truthy p then
    match resolve fs p with
    | None => Raise (OSError "No such file or directory")
    | Some (d, c) =>
        if special c then Raise (OSError "Is a directory")
        else
          match entries fs !! (d ++ [c]) with
          | Some _ => Ret (put (d ++ [c]) v fs)
          | None =>
              if is_dir fs (d ++ [c]) then Raise (OSError "Is a directory")
              else
                match refuses fs p with
                | Some e => Raise e
                | None => Ret (put (d ++ [c]) v fs)
                end
          end
    end
  else Raise (OSError "No such file or directory").

(** Whether [open(p, "w")] succeeds. *)
Definition can_write {V} (fs : t V) (p : string) : bool :=
  PyStr.truthy p
  && match target fs p with
     | None => false
     | Some L =>
         bool_decide (is_Some (entries fs !! L))
         || (negb (is_dir fs L)
             && match refuses fs p with Some _ => false | None => true end)
     end.

(** [fs !! p] is the content of the file that the path [p] names, and
    [<[p := v]> fs] the file system after [v] is written through [p]
    (unchanged when the file cannot be opened).  The empty file system has
    no file and refuses nothing. *)
#[global] Instance lookup {V} : Lookup string V (t V) :=
  fun p fs => match stat fs p with File v => Some v | _ => None end.

#[global] Instance insert {V} : Insert string V (t V) :=
  fun p v fs => match open_w fs p v with Ret fs' => fs' | Raise _ => fs end.

#[global] Instance empty {V} : Empty (t V) :=
  {| cwd := ["srv"; "casepulse"]; entries := ∅; refuses := fun _ => None |}.

#[global] Instance singleton {V} : SingletonM string V (t V) :=
  fun p v => <[p := v]> ∅.

(** [os.listdir] of the directory at [D]: the names directly under it,
    of files and of directories, each once, in some order. *)
Definition child (D K : list string) : option string :=
  match drop_prefix D K with
  | Some (c :: r) => if forallb valid_name (c :: r) then Some c else None
  | _ => None
  end.

Definition listdir {V} (fs : t V) (D : list string) : list string :=
  remove_dups
    (omap (child D)
          ((map_to_list (entries fs)).*1 ++ cwd fs :: made_at_startup fs)).

(** [fs'] has the working directory and every file of [fs]. *)
Definition extends {V} (fs fs' : t V) : Prop :=
  cwd fs' = cwd fs
  /\ forall K, is_Some (entries fs !! K) -> is_Some (entries fs' !! K).

End Fs.

(** ** [datetime.strptime] and [strftime] for the formats of [main.py] *)

Module PyDate.

Record datetime : Type := { year : nat; month : nat; day : nat }.

(** A format is a list of directives: [%Y], [%m], [%d] or a literal
    character. *)
Inductive directive : Type :=
  | dir_Y | dir_m | dir_d
  | dir_lit (c : ascii).

Definition iso_format : list directive :=      (* "%Y-%m-%d" *)
  [dir_Y; dir_lit "-"; dir_m; dir_lit "-"; dir_d].
Definition dmy_dash_format : list directive := (* "%d-%m-%Y" *)
  [dir_d; dir_lit "-"; dir_m; dir_lit "-"; dir_Y].
Definition dmy_dot_format : list directive :=  (* "%d.%m.%Y" *)
  [dir_d; dir_lit "."; dir_m; dir_lit "."; dir_Y].
Definition dmy_slash_format : list directive := (* "%d/%m/%Y" *)
  [dir_d; dir_lit "/"; dir_m; dir_lit "/"; dir_Y].

(** *** Parsing

    [strptime] turns the format into a regular expression, one group per
    directive, and matches it at the start of the input:
    - [%Y] is [\d\d\d\d],
    - [%m] is [1[0-2]|0[1-9]|[1-9]],
    - [%d] is [3[0-1]|[1-2]\d|0[1-9]|[1-9]| [1-9]].
    An alternative is a sequence of character classes. *)

Definition cls := ascii -> bool.

Definition between (lo hi : ascii) : cls :=
  fun c => ((nat_of_ascii lo <=? nat_of_ascii c)
            && (nat_of_ascii c <=? nat_of_ascii hi))%nat.
Definition exactly (a : ascii) : cls := fun c => Ascii.eqb c a.
Definition digit : cls := between "0" "9".

Definition alternatives (d : directive) : list (list cls) :=
  match d with
  | dir_Y => [[digit; digit; digit; digit]]
  | dir_m => [[exactly "1"; between "0" "2"];
              [exactly "0"; between "1" "9"];
              [between "1" "9"]]
  | dir_d => [[exactly "3"; between "0" "1"];
              [between "1" "2"; digit];
              [exactly "0"; between "1" "9"];
              [between "1" "9"];
              [exactly " "; between "1" "9"]]
  | dir_lit c => [[exactly c]]
  end.

(** Match a sequence of classes at the start of [s]: the matched text and
    the rest. *)
Fixpoint match_seq (cs : list cls) (s : string) : option (string * string) :=
  match cs with
  | [] => Some (EmptyString, s)
  | c :: cs' =>
      match s with
      | String a s' =>
          if c a then
            match match_seq cs' s' with
            | Some (m, r) => Some (String a m, r)
            | None => None
            end
          else None
      | EmptyString => None
      end
  end.

(** All ways one directive matches, in the order the backtracking
    matcher tries them. *)
Definition match_directive (d : directive) (s : string)
  : list (string * string) :=
  omap (fun alt => match_seq alt s) (alternatives d).

Definition capture (d : directive) (text : string)
  : list (directive * string) :=
  match d with
  | dir_lit _ => []
  | _ => [(d, text)]
  end.

(** All matches of the whole format, in backtracking order, each with
    its captured groups and the unconsumed rest of the input. *)
Fixpoint regex_match (fmt : list directive) (s : string)
  : list (list (directive * string) * string) :=
  match fmt with
  | [] => [([], s)]
  | d :: fmt' =>
      flat_map
        (fun '(text, r) =>
           map (fun '(gs, r') => (capture d text ++ gs, r'))
               (regex_match fmt' r))
        (match_directive d s)
  end.

Definition directive_eqb (a b : directive) : bool :=
  match a, b with
  | dir_Y, dir_Y | dir_m, dir_m | dir_d, dir_d => true
  | dir_lit x, dir_lit y => Ascii.eqb x y
  | _, _ => false
  end.

Fixpoint group (d : directive) (found : list (directive * string))
  : option string :=
  match found with
  | [] => None
  | (d', text) :: rest => if directive_eqb d d' then Some text else group d rest
  end.

Fixpoint digits_value (acc : nat) (s : string) : option nat :=
  match s with
  | EmptyString => Some acc
  | String a s' =>
      if digit a then digits_value (10 * acc + (nat_of_ascii a - 48)) s'
      else None
  end.

(** [int(s)] for an unsigned decimal numeral, surrounding white space
    allowed. *)
Definition int (s : string) : option nat :=
  match PyStr.strip s with
  | EmptyString => None
  | t => digits_value 0 t
  end.

Definition is_leap (y : nat) : bool :=
  ((y mod 4 =? 0) && (negb (y mod 100 =? 0) || (y mod 400 =? 0)))%nat.

Definition days_in_month (y m : nat) : nat :=
  match m with
  | 2 => if is_leap y then 29 else 28
  | 4 | 6 | 9 | 11 => 30
  | _ => 31
  end.

(** The range check of the [date] constructor. *)
Definition valid_date (y m d : nat) : bool :=
  ((1 <=? y) && (y <=? 9999) && (1 <=? m) && (m <=? 12)
   && (1 <=? d) && (d <=? days_in_month y m))%nat.

(** [datetime.strptime(data_string, fmt)] for formats that carry [%Y],
    [%m] and [%d]: the first match must consume the whole input and the
    fields must form a calendar date. *)
Definition strptime (data_string : string) (fmt : list directive)
  : outcome datetime :=
  match regex_match fmt data_string with
  | [] => Raise (ValueError "time data does not match format")
  | (found, rest) :: _ =>
      if PyStr.truthy rest then
        Raise (ValueError "unconverted data remains")
      else
        match group dir_Y found ≫= int,
              group dir_m found ≫= int,
              group dir_d found ≫= int with
        | Some y, Some m, Some d =>
            if valid_date y m d
            then Ret {| year := y; month := m; day := d |}
            else Raise (ValueError "day is out of range for month")
        | _, _, _ => Raise (ValueError "invalid literal for int()")
        end
  end.

(** *** Printing *)

Definition digit_char (n : nat) : ascii := ascii_of_nat (48 + n mod 10).

Definition two_digits (n : nat) : string :=
  String (digit_char (n / 10)) (String (digit_char n) EmptyString).

Definition four_digits (n : nat) : string :=
  String (digit_char (n / 1000))
    (String (digit_char (n / 100)) (two_digits n)).

(** A number below 1000 without padding. *)
Definition unpadded (n : nat) : string :=
  if n <? 10 then String (digit_char n) EmptyString
  else if n <? 100 then two_digits n
  else String (digit_char (n / 100)) (two_digits n).

(** [%Y]: a year from 1000 on is its four digits; a year below 1000 is
    padded to four digits or not, as the platform has it. *)
Definition print_year `{Platform} (y : nat) : string :=
  if (1000 <=? y) || pads_year then four_digits y else unpadded y.

Definition print_directive `{Platform} (dt : datetime) (d : directive)
  : string :=
  match d with
  | dir_Y => print_year (year dt)
  | dir_m => two_digits (month dt)
  | dir_d => two_digits (day dt)
  | dir_lit c => String c EmptyString
  end.

Fixpoint strftime `{Platform} (dt : datetime) (fmt : list directive)
  : string :=
  match fmt with
  | [] => EmptyString
  | d :: fmt' => print_directive dt d +:+ strftime dt fmt'
  end.

(** No class of the format accepts the character [ch]. *)
Definition rejects (ch : ascii) (fmt : list directive) : bool :=
  forallb (fun d => forallb (forallb (fun c : cls => negb (c ch)))
                      (alternatives d)) fmt.

End PyDate.

(** ** Date helpers *)

Definition convert_date_for_delhi `{Platform} (date_str : string)
  : outcome string :=
  match PyDate.strptime date_str PyDate.iso_format with
  | Ret d => Ret (PyDate.strftime d PyDate.dmy_dot_format)
  | Raise e => Raise e
  end.

Definition convert_date_for_bombay `{Platform} (date_str : string)
  : outcome string :=
  match PyDate.strptime date_str PyDate.iso_format with
  | Ret d => Ret (PyDate.strftime d PyDate.dmy_dash_format)
  | Raise e => Raise e
  end.

Definition parse_iso_to_slash `{Platform} (date_str : string)
  : outcome string :=
  match PyDate.strptime date_str PyDate.iso_format with
  | Ret d => Ret (PyDate.strftime d PyDate.dmy_slash_format)
  | Raise e => Raise e
  end.

Definition convert_date_for_nclat `{Platform} (date_str : string)
  : outcome string :=
  if PyStr.contains "/" date_str then Ret date_str
  else if PyStr.contains "-" date_str then
    match String.get 2 date_str with
    | None => Raise (IndexError "string index out of range")
    | Some c =>
        if Ascii.eqb c "-" then
          match PyDate.strptime date_str PyDate.dmy_dash_format with
          | Ret d => Ret (PyDate.strftime d PyDate.dmy_slash_format)
          | Raise e => Raise e
          end
        else parse_iso_to_slash date_str
    end
  else parse_iso_to_slash date_str.

(** ** Requests, calls and the state *)

Record SearchRequest : Type :=
  { partyName : string; date : option string; court : string }.

Record SearchRangeRequest : Type :=
  { r_partyName : string; startDate : string; endDate : string;
    r_court : string }.

Record MonitorRequest : Type :=
  { keyword : string; mode : string; m_year : option string }.

Record CercRequest : Type := { month : string; party : string }.

(** The scraper modules imported by [main.py] and their entry points. *)
Inductive backend : Type :=
  | supreme_court | delhi_high_court | bombay_high_court | nclat | cerc.

Inductive entry_point : Type := ep_search | ep_search_range | ep_monitor.

Inductive pyval : Type :=
  | PStr (s : string)
  | PNone
  | PBool (b : bool).

Record Call : Type :=
  { target : backend; entry : entry_point; args : list pyval }.

Definition of_optional (o : option string) : pyval :=
  match o with Some s => PStr s | None => PNone end.

(** [not request.date]: true for [None] and for the empty string. *)
Definition date_missing (d : option string) : bool :=
  match d with
  | None => true
  | Some s => negb (PyStr.truthy s)
  end.

(** [c in (x, y, ...)] and [c == x] on strings. *)
Definition court_in (c : string) (l : list string) : bool :=
  existsb (String.eqb c) l.

Section App.

Context {platform : Platform}.

(** The records the scrapers return: JSON objects compared with [==]. *)
Context {Rec : Type} `{!EqDecision Rec}.

(** The registries behind the scrapers, and what a scraper call does to
    them and returns. *)
Context {World : Type}.
Variable adapter : Call -> World -> outcome (list Rec) * World.

Inductive Event : Type :=
  | EvCall (c : Call)
  | EvWrite (path : string) (data : list Rec).

Record State : Type :=
  { world : World;
    files : Fs.t (list Rec);
    trace : list Event }.

(** Handlers run in a state monad with exceptions. *)
Definition M (A : Type) : Type := State -> outcome A * State.

Definition ret {A} (a : A) : M A := fun st => (Ret a, st).

Definition bind {A B} (m : M A) (k : A -> M B) : M B :=
  fun st =>
    match m st with
    | (Ret a, st') => k a st'
    | (Raise e, st') => (Raise e, st')
    end.

(** [try: body  except Exception as e: handler e] *)
Definition try_except {A} (body : M A) (handler : exn -> M A) : M A :=
  fun st =>
    match body st with
    | (Ret a, st') => (Ret a, st')
    | (Raise e, st') => handler e st'
    end.

Definition lift {A} (o : outcome A) : M A := fun st => (o, st).

Definition log (e : Event) (st : State) : State :=
  {| world := world st; files := files st; trace := trace st ++ [e] |}.

(** Call a scraper entry point. *)
Definition invoke (c : Call) : M (list Rec) :=
  fun st =>
    let '(o, w) := adapter c (world st) in
    (o, log (EvCall c)
          {| world := w; files := files st; trace := trace st |}).

(** [old_data = []; if os.path.exists(path): old_data = json.load(f)].
    [os.path.exists] is true of a directory as well, which [open] then
    refuses to read. *)
Definition read_snapshot (path : string) : M (list Rec) :=
  fun st =>
    match Fs.stat (files st) path with
    | Fs.File old_data => (Ret old_data, st)
    | Fs.Dir => (Raise (OSError "Is a directory"), st)
    | Fs.Missing => (Ret [], st)
    end.

(** [with open(path, "w") as f: json.dump(data, f)]: when [open] raises
    nothing is written. *)
Definition write_snapshot (path : string) (data : list Rec) : M unit :=
  fun st =>
    match Fs.open_w (files st) path data with
    | Ret fs =>
        (Ret tt, log (EvWrite path data)
                   {| world := world st; files := fs; trace := trace st |})
    | Raise e => (Raise e, st)
    end.

Notation "x <- m ;; k" := (bind m (fun x => k))
  (at level 100, m at next level, right associativity).

(** [try: results.extend(body)  except Exception: pass] *)
Definition guarded (results : list Rec) (body : M (list Rec))
  : M (list Rec) :=
  try_except (r <- body ;; ret (results ++ r)) (fun _ => ret results).

(** *** POST /api/search *)

Definition search_cases (request : SearchRequest) : M (list Rec) :=
  let results := [] in
  if date_missing (date request) then ret results else
  let request_date := default "" (date request) in
  results <-
    (if court_in (court request) ["supreme"; "all"] then
       guarded results
         (invoke {| target := supreme_court; entry := ep_search;
                    args := [PStr (partyName request); PStr request_date] |})
     else ret results) ;;
  results <-
    (if court_in (court request) ["delhi"; "all"] then
       guarded results
         (delhi_date <-
            lift (if String.eqb (court request) "all"
                  then convert_date_for_delhi request_date
                  else Ret request_date) ;;
          invoke {| target := delhi_high_court; entry := ep_search;
                    args := [PStr (partyName request); PStr delhi_date] |})
     else ret results) ;;
  results <-
    (if court_in (court request) ["bombay"; "all"] then
       guarded results
         (bombay_date <-
            lift (if String.eqb (court request) "all"
                  then convert_date_for_bombay request_date
                  else Ret request_date) ;;
          invoke {| target := bombay_high_court; entry := ep_search;
                    args := [PStr (partyName request); PStr bombay_date] |})
     else ret results) ;;
  results <-
    (if String.eqb (court request) "nclat" then
       guarded results
         (d1 <- lift (convert_date_for_nclat request_date) ;;
          d2 <- lift (convert_date_for_nclat request_date) ;;
          invoke {| target := nclat; entry := ep_search_range;
                    args := [PStr (partyName request); PStr d1; PStr d2] |})
     else ret results) ;;
  ret results.

(** *** POST /api/search-range *)

Definition search_cases_range (request : SearchRangeRequest)
  : M (list Rec) :=
  let results := [] in
  results <-
    (if court_in (r_court request) ["supreme"; "all"] then
       guarded results
         (invoke {| target := supreme_court; entry := ep_search_range;
                    args := [PStr (r_partyName request);
                             PStr (startDate request);
                             PStr (endDate request)] |})
     else ret results) ;;
  results <-
    (if court_in (r_court request) ["delhi"; "all"] then
       guarded results
         (delhi_start <-
            lift (if String.eqb (r_court request) "all"
                  then convert_date_for_delhi (startDate request)
                  else Ret (startDate request)) ;;
          delhi_end <-
            lift (if String.eqb (r_court request) "all"
                  then convert_date_for_delhi (endDate request)
                  else Ret (endDate request)) ;;
          invoke {| target := delhi_high_court; entry := ep_search_range;
                    args := [PStr (r_partyName request);
                             PStr delhi_start; PStr delhi_end] |})
     else ret results) ;;
  results <-
    (if court_in (r_court request) ["bombay"; "all"] then
       guarded results
         (bombay_start <-
            lift (if String.eqb (r_court request) "all"
                  then convert_date_for_bombay (startDate request)
                  else Ret (startDate request)) ;;
          bombay_end <-
            lift (if String.eqb (r_court request) "all"
                  then convert_date_for_bombay (endDate request)
                  else Ret (endDate request)) ;;
          invoke {| target := bombay_high_court; entry := ep_search_range;
                    args := [PStr (r_partyName request);
                             PStr bombay_start; PStr bombay_end] |})
     else ret results) ;;
  results <-
    (if String.eqb (r_court request) "nclat" then
       guarded results
         (d1 <- lift (convert_date_for_nclat (startDate request)) ;;
          d2 <- lift (convert_date_for_nclat (endDate request)) ;;
          invoke {| target := nclat; entry := ep_search_range;
                    args := [PStr (r_partyName request); PStr d1; PStr d2] |})
     else ret results) ;;
  ret results.

(** *** POST /api/supreme/monitor *)

(** The response dictionary; a key that is not set is [None]. *)
Record MonitorResponse : Type :=
  { status : string;
    message : string;
    new_items : option (list Rec);
    total : option nat;
    count : option nat;
    file : string }.

Definition monitor_filename (keyword mode : string) : string :=
  PyStr.replace " " "_" keyword +:+ "_" +:+ mode +:+ ".json".

Definition supreme_monitor (req : MonitorRequest) : M MonitorResponse :=
  let keyword := PyStr.strip (keyword req) in
  let mode := mode req in
  all_results <-
    invoke {| target := supreme_court; entry := ep_monitor;
              args := [PStr keyword; PStr mode] |} ;;
  let filename := monitor_filename keyword mode in
  let path := path_join DATA_DIR filename in
  old_data <- read_snapshot path ;;
  if decide (old_data = all_results) then
    ret {| status := "no_change";
           message := "No new updates";
           new_items := None;
           total := None;
           count := Some (List.length all_results);
           file := filename |}
  else
    let new_items := filter (fun x => x ∉ old_data) all_results in
    _ <- write_snapshot path all_results ;;
    ret {| status := "updated";
           message := "New judgments found";
           new_items := Some new_items;
           total := Some (List.length all_results);
           count := None;
           file := filename |}.

(** *** POST /api/delhi/monitor *)

Definition delhi_monitor (req : MonitorRequest) : M (list Rec) :=
  let keyword := PyStr.strip (keyword req) in
  let mode := mode req in
  let year := m_year req in
  try_except
    (invoke {| target := delhi_high_court; entry := ep_monitor;
               args := [PStr keyword; of_optional year; PStr mode;
                        PBool true] |})
    (fun _ => ret []).

(** *** POST /api/cerc/search *)

Record CercResponse : Type := { results : list Rec; c_count : nat }.

Definition cerc_search (req : CercRequest) : M CercResponse :=
  try_except
    (data <-
       invoke {| target := cerc; entry := ep_search;
                 args := [PStr (month req); PStr (party req)] |} ;;
     ret {| results := data; c_count := List.length data |})
    (fun _ => ret {| results := []; c_count := 0 |}).

(** *** Calls in isolation

    The reading of the dispatchers that the theorems below establish:
    a list of calls run one after the other, each outcome reduced to its
    [contribution]. *)

Fixpoint run_calls (cs : list Call) (w : World)
  : list (outcome (list Rec)) * World :=
  match cs with
  | [] => ([], w)
  | c :: cs' =>
      let r := adapter c w in
      let rs := run_calls cs' r.2 in
      (r.1 :: rs.1, rs.2)
  end.

Definition isolated_from (results : list Rec) (cs : list Call)
  : M (list Rec) :=
  fun st =>
    let r := run_calls cs (world st) in
    (Ret (results ++ List.concat (contribution <$> r.1)),
     {| world := r.2; files := files st;
        trace := trace st ++ (EvCall <$> cs) |}).

(** The call a block makes when its date normalisation succeeds. *)
Definition attempt (o : outcome Call) : list Call :=
  match o with Ret c => [c] | Raise _ => [] end.

Definition outcome_map {A B} (f : A -> B) (o : outcome A) : outcome B :=
  match o with Ret a => Ret (f a) | Raise e => Raise e end.

Definition outcome_bind {A B} (o : outcome A) (f : A -> outcome B)
  : outcome B :=
  match o with Ret a => f a | Raise e => Raise e end.

Definition search_call (b : backend) (p d : string) : Call :=
  {| target := b; entry := ep_search; args := [PStr p; PStr d] |}.

Definition range_call (b : backend) (p d1 d2 : string) : Call :=
  {| target := b; entry := ep_search_range;
     args := [PStr p; PStr d1; PStr d2] |}.

(** The date a high-court block hands to its scraper. *)
Definition block_date (convert : string -> outcome string)
    (court d : string) : outcome string :=
  if String.eqb court "all" then convert d else Ret d.

Definition plan_single (request : SearchRequest) : list Call :=
  if date_missing (date request) then [] else
  let d := default "" (date request) in
  let p := partyName request in
  let c := court request in
  (if court_in c ["supreme"; "all"]
   then [search_call supreme_court p d] else [])
  ++ (if court_in c ["delhi"; "all"]
      then attempt (outcome_map (search_call delhi_high_court p)
                      (block_date convert_date_for_delhi c d))
      else [])
  ++ (if court_in c ["bombay"; "all"]
      then attempt (outcome_map (search_call bombay_high_court p)
                      (block_date convert_date_for_bombay c d))
      else [])
  ++ (if String.eqb c "nclat"
      then attempt (outcome_bind (convert_date_for_nclat d) (fun d1 =>
                    outcome_map (range_call nclat p d1)
                      (convert_date_for_nclat d)))
      else []).

Definition plan_range (request : SearchRangeRequest) : list Call :=
  let s := startDate request in
  let e := endDate request in
  let p := r_partyName request in
  let c := r_court request in
  (if court_in c ["supreme"; "all"]
   then [range_call supreme_court p s e] else [])
  ++ (if court_in c ["delhi"; "all"]
      then attempt (outcome_bind (block_date convert_date_for_delhi c s)
                      (fun d1 => outcome_map
                         (range_call delhi_high_court p d1)
                         (block_date convert_date_for_delhi c e)))
      else [])
  ++ (if court_in c ["bombay"; "all"]
      then attempt (outcome_bind (block_date convert_date_for_bombay c s)
                      (fun d1 => outcome_map
                         (range_call bombay_high_court p d1)
                         (block_date convert_date_for_bombay c e)))
      else [])
  ++ (if String.eqb c "nclat"
      then attempt (outcome_bind (convert_date_for_nclat s) (fun d1 =>
                    outcome_map (range_call nclat p d1)
                      (convert_date_for_nclat e)))
      else []).

(** The events a handler adds to the trace. *)
Definition events_of {A} (m : M A) (st : State) : list Event :=
  drop (List.length (trace st)) (trace (m st).2).

Definition is_write (e : Event) : bool :=
  match e with EvWrite _ _ => true | EvCall _ => false end.

(** The snapshot file of a monitor request. *)
Definition snapshot_path (kw md : string) : string :=
  path_join DATA_DIR (monitor_filename (PyStr.strip kw) md).

(** The scraper call of a poll, and the snapshot a poll finds. *)
Definition monitor_call (req : MonitorRequest) : Call :=
  {| target := supreme_court; entry := ep_monitor;
     args := [PStr (PyStr.strip (keyword req)); PStr (mode req)] |}.

Definition stored (st : State) (req : MonitorRequest) : list Rec :=
  default [] (files st !! snapshot_path (keyword req) (mode req)).

(** *** GET /api/supreme/monitors

    The response dictionary has the one key "files". *)
Definition list_saved_monitors : M (list string) :=
  fun st =>
    let names :=
      filter (fun f => PyStr.endswith_str ".json" f = true)
             (Fs.listdir (files st) (Fs.cwd (files st) ++ [DATA_DIR])) in
    (Ret (merge_sort str_le names), st).

(** The scrapers an event list calls, in order. *)
Definition called (evs : list Event) : list backend :=
  omap (fun ev => match ev with
                  | EvCall c => Some (target c)
                  | EvWrite _ _ => None
                  end) evs.

End App.

Arguments State Rec World : clear implicits.
Arguments Event Rec : clear implicits.
Arguments M Rec World A : clear implicits.
Arguments MonitorResponse Rec : clear implicits.
Arguments CercResponse Rec : clear implicits.

(** Two keywords that are equal once every space is read as an
    underscore. *)
Definition space_underscore_equal (k1 k2 : string) : Prop :=
  PyStr.replace " " "_" k1 = PyStr.replace " " "_" k2.

(** ** A concrete instance for examples *)

Module Case.

(** [BaseCaseResult] *)
Record t : Type :=
  { case_number : string;
    petitioner : string;
    respondent : string;
    advocates : string;
    court : string;
    judge : option string;
    court_no : option string;
    date : option string }.

#[global] Instance eq_dec : EqDecision t.
Proof. solve_decision. Defined.

Definition make (number pet : string) : t :=
  {| case_number := number; petitioner := pet; respondent := "State";
     advocates := "-"; court := "supreme"; judge := None;
     court_no := None; date := None |}.

End Case.

Module Script.

(** A registry world that answers the successive scraper calls from a
    script, whatever the call; past its end every call fails. *)
Definition registry : Type := list (outcome (list Case.t)).

Definition adapter (c : Call) (w : registry)
  : outcome (list Case.t) * registry :=
  match w with
  | o :: w' => (o, w')
  | [] => (Raise (AdapterError "connection refused"), [])
  end.

Definition init (script : registry) (fs : Fs.t (list Case.t))
  : State Case.t registry :=
  {| world := script; files := fs; trace := [] |}.

Definition down : outcome (list Case.t) :=
  Raise (AdapterError "timeout").

End Script.

Module Outage.

(** A world in which every scraper call fails. *)
Definition adapter (c : Call) (w : unit) : outcome (list Case.t) * unit :=
  (Raise (AdapterError "unreachable"), w).

Definition init : State Case.t unit :=
  {| world := tt; files := ∅; trace := [] |}.

End Outage.

(** The examples run on a platform that does not pad the year. *)
#[global] Instance unpadded_platform : Platform := {| pads_year := false |}.

(** Sample records and requests. *)
Definition rec_a : Case.t := Case.make "C.A. 101/2024" "Acme Corp".
Definition rec_b : Case.t := Case.make "C.A. 102/2024" "Acme Corp".
Definition rec_c : Case.t := Case.make "C.A. 215/2024" "Acme Corp".

Definition acme_poll : MonitorRequest :=
  {| keyword := " acme corp "; mode := "party"; m_year := None |}.

Definition acme_file : string := "monitor_data/acme_corp_party.json".

Definition iso_all : SearchRequest :=
  {| partyName := "acme"; date := Some "2024-03-05"; court := "all" |}.
Definition iso_nclat : SearchRequest :=
  {| partyName := "acme"; date := Some "2024-03-05"; court := "nclat" |}.
Definition junk_all : SearchRequest :=
  {| partyName := "acme"; date := Some "next tuesday"; court := "all" |}.
Definition junk_nclat : SearchRequest :=
  {| partyName := "acme"; date := Some "next tuesday"; court := "nclat" |}.
Definition cerc_single : SearchRequest :=
  {| partyName := "acme"; date := Some "2024-03-05"; court := "cerc" |}.
Definition sample_store : Fs.t (list Case.t) :=
  <[ "monitor_data/zeta_party.json" := [rec_a] ]>
    (<[ "monitor_data/acme_corp_party.json" := [rec_a; rec_b] ]>
       (<[ "monitor_data/notes.txt" := [] ]> ∅)).

Definition first_poll : MonitorRequest :=
  {| keyword := "acme"; mode := "party"; m_year := None |}.

(** * Properties *)

(** ** Strings *)

Section StringFacts.

Lemma all_space_cons a s :
  PyStr.all_space (String a s) <-> PyStr.isspace a = true /\ PyStr.all_space s.
Proof.
  unfold PyStr.all_space; simpl. split.
  - inversion 1; auto.
  - intros [? ?]. by constructor.
Qed.

Lemma lstrip_all_space s : PyStr.all_space s -> PyStr.lstrip s = "".
Proof.
  induction s as [|a s IH]; [done|].
  intros [Ha Hs]%all_space_cons. simpl. rewrite Ha. auto.
Qed.

Lemma rstrip_all_space s : PyStr.all_space s -> PyStr.rstrip s = "".
Proof.
  induction s as [|a s IH]; [done|].
  intros [Ha Hs]%all_space_cons. simpl. rewrite (IH Hs), Ha. done.
Qed.

Lemma lstrip_app_space l s :
  PyStr.all_space l -> PyStr.lstrip (l +:+ s) = PyStr.lstrip s.
Proof.
  induction l as [|a l IH]; [done|].
  intros [Ha Hl]%all_space_cons. simpl. rewrite Ha. auto.
Qed.

Lemma rstrip_app_space s r :
  PyStr.all_space r -> PyStr.rstrip (s +:+ r) = PyStr.rstrip s.
Proof.
  intros Hr. induction s as [|a s IH]; simpl.
  - by apply rstrip_all_space.
  - by rewrite IH.
Qed.

Lemma strip_app_space_r k r :
  PyStr.all_space r -> PyStr.strip (k +:+ r) = PyStr.strip k.
Proof.
  intros Hr. unfold PyStr.strip. induction k as [|a k IH]; simpl.
  - rewrite lstrip_all_space by done. done.
  - destruct (PyStr.isspace a); [done|].
    change (String a (k +:+ r)) with (String a k +:+ r).
    by apply rstrip_app_space.
Qed.

(** Stripping forgets surrounding white space. *)
Lemma strip_surrounded l k r :
  PyStr.all_space l -> PyStr.all_space r ->
  PyStr.strip (l +:+ k +:+ r) = PyStr.strip k.
Proof.
  intros Hl Hr. unfold PyStr.strip at 1. rewrite lstrip_app_space by done.
  by apply strip_app_space_r.
Qed.

Lemma contains_app_r c a b :
  PyStr.contains c b = true -> PyStr.contains c (a +:+ b) = true.
Proof.
  intros H. induction a as [|x a IH]; simpl; [done|].
  rewrite IH. apply orb_true_r.
Qed.

Lemma contains_here c s : PyStr.contains c (String c s) = true.
Proof. simpl. by rewrite Ascii.eqb_refl. Qed.

Lemma contains_app c a b :
  PyStr.contains c (a +:+ b) = PyStr.contains c a || PyStr.contains c b.
Proof.
  induction a as [|x a IH]; simpl; [done|].
  rewrite IH. by rewrite orb_assoc.
Qed.

Lemma replace_app x y a b :
  PyStr.replace x y (a +:+ b) = PyStr.replace x y a +:+ PyStr.replace x y b.
Proof. induction a as [|c a IH]; simpl; [done|]. by rewrite IH. Qed.

Lemma append_assoc (a b c : string) : (a +:+ b) +:+ c = a +:+ (b +:+ c).
Proof.
  induction a as [|x a IH]; [done|]. exact (f_equal (String x) IH).
Qed.

Lemma append_nil_r (a : string) : a +:+ "" = a.
Proof.
  induction a as [|x a IH]; [done|]. exact (f_equal (String x) IH).
Qed.

(** A string that neither starts nor ends with white space is its own
    strip. *)
Lemma lstrip_id a s : PyStr.isspace a = false -> PyStr.lstrip (String a s) = String a s.
Proof. intros H. simpl. by rewrite H. Qed.

Lemma rstrip_nonempty_head a s :
  PyStr.isspace a = false -> exists t, PyStr.rstrip (String a s) = String a t.
Proof.
  intros H. simpl. destruct (PyStr.rstrip s); [|eauto].
  rewrite H. eauto.
Qed.

Lemma rstrip_idem s : PyStr.rstrip (PyStr.rstrip s) = PyStr.rstrip s.
Proof.
  induction s as [|a s IH]; [done|]. simpl.
  destruct (PyStr.rstrip s) as [|b t] eqn:E.
  - destruct (PyStr.isspace a) eqn:Ha; [done|]. simpl. by rewrite Ha.
  - simpl. simpl in IH. by rewrite IH.
Qed.

Lemma lstrip_head s :
  PyStr.lstrip s = ""
  \/ exists a t, PyStr.lstrip s = String a t /\ PyStr.isspace a = false.
Proof.
  induction s as [|a s IH]; [by left|]. simpl.
  destruct (PyStr.isspace a) eqn:Ha; [done|]. right. eauto.
Qed.

Lemma strip_idem s : PyStr.strip (PyStr.strip s) = PyStr.strip s.
Proof.
  unfold PyStr.strip.
  destruct (lstrip_head s) as [->|(a & t & -> & Ha)]; [done|].
  destruct (rstrip_nonempty_head a t Ha) as [u Hu].
  rewrite Hu, lstrip_id by done. rewrite <- Hu. apply rstrip_idem.
Qed.

Lemma rstrip_no_space s :
  Forall (fun c => PyStr.isspace c = false) (list_ascii_of_string s) ->
  PyStr.rstrip s = s.
Proof.
  induction s as [|a s IH]; [done|]. simpl.
  intros H. inversion H as [|? ? Ha Hs]; subst.
  rewrite (IH Hs). destruct s; [by rewrite Ha | done].
Qed.

Lemma strip_no_space s :
  Forall (fun c => PyStr.isspace c = false) (list_ascii_of_string s) ->
  PyStr.strip s = s.
Proof.
  intros H. unfold PyStr.strip. destruct s as [|a s]; [done|].
  inversion H as [|? ? Ha Hs]; subst.
  rewrite lstrip_id by done. by apply rstrip_no_space.
Qed.

Lemma str_length_app a b :
  String.length (a +:+ b) = String.length a + String.length b.
Proof.
  induction a as [|x a IH]; [done|].
  change (String x a +:+ b) with (String x (a +:+ b)). cbn. by rewrite IH.
Qed.

Lemma substring_all s : String.substring 0 (String.length s) s = s.
Proof. induction s as [|a s IH]; [done|]. cbn. by rewrite IH. Qed.

Lemma substring_skip x k s :
  String.substring (String.length x) k (x +:+ s) = String.substring 0 k s.
Proof.
  induction x as [|a x IH]; [done|].
  change (String a x +:+ s) with (String a (x +:+ s)). cbn. apply IH.
Qed.

Lemma endswith_str_app suffix x :
  PyStr.endswith_str suffix (x +:+ suffix) = true.
Proof.
  unfold PyStr.endswith_str. rewrite str_length_app.
  replace (String.length x + String.length suffix - String.length suffix)
    with (String.length x) by lia.
  rewrite substring_skip, substring_all, String.eqb_refl, andb_true_r.
  apply Nat.leb_le. lia.
Qed.

Lemma strip_prefix_app pre s : strip_prefix pre (pre +:+ s) = Some s.
Proof.
  induction pre as [|a pre IH]; [by destruct s|].
  change (String a pre +:+ s) with (String a (pre +:+ s)). cbn.
  by rewrite Ascii.eqb_refl.
Qed.

Lemma first_component_id s :
  PyStr.contains "/" s = false -> first_component s = s.
Proof.
  induction s as [|a s IH]; [done|]. cbn.
  intros [Ha Hs]%orb_false_iff. rewrite Ha. by rewrite IH.
Qed.

Lemma contains_replace c x y s :
  Ascii.eqb c x = false -> Ascii.eqb c y = false ->
  PyStr.contains c (PyStr.replace x y s) = PyStr.contains c s.
Proof.
  intros Hx Hy. induction s as [|a s IH]; [done|]. cbn. rewrite IH.
  f_equal. destruct (Ascii.eqb_spec a x) as [->|Hax]; [|done].
  rewrite (Ascii.eqb_sym y), Hy. by rewrite (Ascii.eqb_sym x), Hx.
Qed.

Lemma strip_prefix_Some pre s r : strip_prefix pre s = Some r -> s = pre +:+ r.
Proof.
  revert s. induction pre as [|a pre IH]; intros s; cbn.
  - by intros [= ->].
  - destruct s as [|b s]; [done|].
    destruct (Ascii.eqb_spec a b) as [->|]; [|done].
    intros H%IH. by rewrite H.
Qed.

Lemma first_component_split s :
  PyStr.contains "/" (first_component s) = false
  /\ (s = first_component s
      \/ exists x, s = first_component s +:+ String "/" x).
Proof.
  induction s as [|a s [IH1 IH2]]; [by split; [|left]|]. cbn.
  destruct (Ascii.eqb_spec a "/") as [->|Hne].
  - split; [done|]. right. by exists s.
  - split.
    + cbn. rewrite IH1, orb_false_r. by apply Ascii.eqb_neq.
    + destruct IH2 as [IH2|[x IH2]].
      * left. by rewrite <- IH2.
      * right. exists x.
        change (String a (first_component s) +:+ String "/" x)
          with (String a (first_component s +:+ String "/" x)).
        by rewrite <- IH2.
Qed.

Lemma first_component_app_slash f x :
  PyStr.contains "/" f = false ->
  first_component (f +:+ String "/" x) = f.
Proof.
  induction f as [|a f IH]; [done|].
  change (PyStr.contains "/" (String a f))
    with (Ascii.eqb a "/" || PyStr.contains "/" f).
  intros [Ha Hf]%orb_false_iff.
  change (String a f +:+ String "/" x) with (String a (f +:+ String "/" x)).
  cbn. by rewrite Ha, (IH Hf).
Qed.

End StringFacts.

(** ** The file system *)

Section FsFacts.

Context {V : Type}.
Implicit Types (fs : Fs.t V) (L K D : list string) (p q : string).

Lemma drop_prefix_Some L K r : Fs.drop_prefix L K = Some r <-> K = L ++ r.
Proof.
  revert K. induction L as [|a L IH]; intros K; cbn.
  - split; [by intros [= ->] | by intros ->].
  - destruct K as [|b K]; [done|].
    destruct (String.eqb_spec a b) as [->|Hne].
    + rewrite IH. split; [by intros -> | by intros [= ->]].
    + split; [done | by intros [= -> _]].
Qed.

Lemma drop_prefix_app L r : Fs.drop_prefix L (L ++ r) = Some r.
Proof. by apply drop_prefix_Some. Qed.

Lemma beneath_spec L K :
  Fs.beneath L K = true
  <-> exists c r, K = L ++ c :: r /\ forallb Fs.valid_name (c :: r) = true.
Proof.
  unfold Fs.beneath. split.
  - destruct (Fs.drop_prefix L K) as [[|c r]|] eqn:E; try done.
    apply drop_prefix_Some in E. eauto.
  - intros (c & r & -> & Hv). by rewrite drop_prefix_app.
Qed.

Lemma extends_refl fs : Fs.extends fs fs.
Proof. by split. Qed.

Lemma put_extends L v fs : Fs.extends fs (Fs.put L v fs).
Proof.
  split; [done|]. intros K HK. cbn. rewrite lookup_insert.
  case_decide; [by eexists | done].
Qed.

Lemma key_elem fs K :
  K ∈ (map_to_list (Fs.entries fs)).*1 <-> is_Some (Fs.entries fs !! K).
Proof.
  rewrite list_elem_of_fmap. split.
  - intros ([K' v] & -> & Hk%elem_of_map_to_list). by eexists.
  - intros [v Hv]. exists (K, v). split; [done|].
    by apply elem_of_map_to_list.
Qed.

Lemma beneath_some fs L :
  existsb (Fs.beneath L) (map_to_list (Fs.entries fs)).*1 = true
  <-> exists K, is_Some (Fs.entries fs !! K) /\ Fs.beneath L K = true.
Proof.
  rewrite existsb_exists. split.
  - intros (K & HK%list_elem_of_In%key_elem & Hb). eauto.
  - intros (K & HK & Hb). exists K. split; [|done].
    by apply list_elem_of_In, key_elem.
Qed.

Lemma is_dir_mono fs fs' L :
  Fs.extends fs fs' -> Fs.is_dir fs L = true -> Fs.is_dir fs' L = true.
Proof.
  intros [Hcwd Hkeys]. unfold Fs.is_dir, Fs.made_at_startup. rewrite Hcwd.
  rewrite !orb_true_iff, !beneath_some.
  intros [[H|H]|(K & HK & Hb)]; [by left; left | by left; right |].
  right. exists K. split; [by apply Hkeys | done].
Qed.

Lemma walk_mono fs fs' cur cs X :
  Fs.extends fs fs' -> Fs.walk fs cur cs = Some X -> Fs.walk fs' cur cs = Some X.
Proof.
  intros Hext. revert cur. induction cs as [|c cs IH]; intros cur; cbn;
    [done|].
  destruct (String.eqb c "" || String.eqb c "."); [apply IH|].
  destruct (String.eqb c ".."); [apply IH|].
  destruct (Fs.is_dir fs (cur ++ [c])) eqn:Hd; [|done].
  rewrite (is_dir_mono _ _ _ Hext Hd). apply IH.
Qed.

Lemma resolve_mono fs fs' p x :
  Fs.extends fs fs' -> Fs.resolve fs p = Some x -> Fs.resolve fs' p = Some x.
Proof.
  intros Hext. unfold Fs.resolve. rewrite (proj1 Hext).
  destruct (Fs.walk fs _ _) as [d|] eqn:E; [|done].
  by rewrite (walk_mono _ _ _ _ _ Hext E).
Qed.

Lemma lookup_File fs p v : fs !! p = Some v <-> Fs.stat fs p = Fs.File v.
Proof.
  unfold lookup, Fs.lookup.
  destruct (Fs.stat fs p) as [w| |]; split; intros H; try discriminate H;
    by injection H as ->.
Qed.

Lemma stat_File fs p v :
  Fs.stat fs p = Fs.File v
  <-> PyStr.truthy p = true
      /\ exists L, Fs.target fs p = Some L /\ Fs.entries fs !! L = Some v.
Proof.
  unfold Fs.stat, Fs.target. destruct (PyStr.truthy p); [|split; [done|]].
  2:{ by intros [? _]. }
  destruct (Fs.resolve fs p) as [[d c]|].
  2:{ split; [done|]. by intros [_ (L & ? & _)]. }
  destruct (Fs.special c).
  { split; [done|]. by intros [_ (L & ? & _)]. }
  destruct (Fs.entries fs !! (d ++ [c])) as [w|] eqn:E.
  - split.
    + intros [= ->]. split; [done|]. eauto.
    + intros [_ (L & [= <-] & HL)]. rewrite E in HL.
      by injection HL as ->.
  - split.
    + by destruct (Fs.is_dir fs (d ++ [c])).
    + intros [_ (L & [= <-] & HL)]. rewrite E in HL. discriminate HL.
Qed.

Lemma target_mono fs fs' p L :
  Fs.extends fs fs' -> Fs.target fs p = Some L -> Fs.target fs' p = Some L.
Proof.
  intros Hext. unfold Fs.target.
  destruct (Fs.resolve fs p) as [[d c]|] eqn:E; [|done].
  by rewrite (resolve_mono _ _ _ _ Hext E).
Qed.

(** What a path yields stays readable when files are added. *)
Lemma lookup_mono fs fs' p :
  Fs.extends fs fs' -> is_Some (fs !! p) -> is_Some (fs' !! p).
Proof.
  intros Hext [v (Ht & L & HL & Hv)%lookup_File%stat_File].
  destruct (proj2 Hext L) as [w Hw]; [by eexists|].
  exists w. apply lookup_File, stat_File. split; [done|].
  exists L. split; [by eapply target_mono | done].
Qed.

(** A successful open puts the data at the place the path names. *)
Lemma open_w_ret fs p v fs' :
  Fs.open_w fs p v = Ret fs' ->
  exists L, Fs.target fs p = Some L /\ fs' = Fs.put L v fs
            /\ PyStr.truthy p = true.
Proof.
  unfold Fs.open_w, Fs.target. destruct (PyStr.truthy p); [|done].
  destruct (Fs.resolve fs p) as [[d c]|]; [|done].
  destruct (Fs.special c); [done|].
  destruct (Fs.entries fs !! (d ++ [c])).
  - intros [= <-]. eauto.
  - destruct (Fs.is_dir fs (d ++ [c])); [done|].
    destruct (Fs.refuses fs p); [done|]. intros [= <-]. eauto.
Qed.

Lemma open_w_extends fs p v fs' :
  Fs.open_w fs p v = Ret fs' -> Fs.extends fs fs'.
Proof. intros (L & _ & -> & _)%open_w_ret. apply put_extends. Qed.

(** What was written is what the path yields afterwards. *)
Lemma lookup_open_w fs p v fs' :
  Fs.open_w fs p v = Ret fs' -> fs' !! p = Some v.
Proof.
  intros (L & HL & -> & Ht)%open_w_ret.
  apply lookup_File, stat_File. split; [done|]. exists L. split.
  - eapply target_mono; [apply put_extends | done].
  - cbn. apply lookup_insert_eq.
Qed.

Lemma can_write_spec fs p v :
  Fs.can_write fs p = true <-> exists fs', Fs.open_w fs p v = Ret fs'.
Proof.
  unfold Fs.can_write, Fs.open_w, Fs.target.
  destruct (PyStr.truthy p); [|split; [done | by intros [? ?]]].
  destruct (Fs.resolve fs p) as [[d c]|]; [|split; [done | by intros [? ?]]].
  destruct (Fs.special c); [split; [done | by intros [? ?]]|].
  cbn [andb].
  destruct (Fs.entries fs !! (d ++ [c])) as [w|] eqn:E.
  - split; [eauto|]. intros _. rewrite bool_decide_eq_true_2; [done|].
    by eexists.
  - rewrite bool_decide_eq_false_2 by (by intros [? ?]). cbn [orb].
    destruct (Fs.is_dir fs (d ++ [c])); [split; [done | by intros [? ?]]|].
    destruct (Fs.refuses fs p); [split; [done | by intros [? ?]]|].
    split; eauto.
Qed.

Lemma can_write_false fs p v :
  Fs.can_write fs p = false -> exists e, Fs.open_w fs p v = Raise e.
Proof.
  intros H. destruct (Fs.open_w fs p v) as [fs'|e] eqn:E; [|eauto].
  assert (Fs.can_write fs p = true) by (apply (can_write_spec _ _ v); eauto).
  congruence.
Qed.

(** A file that is there can be written again. *)
Lemma can_write_existing fs p v : fs !! p = Some v -> Fs.can_write fs p = true.
Proof.
  intros (Ht & L & HL & Hv)%lookup_File%stat_File.
  unfold Fs.can_write. rewrite Ht, HL. cbn.
  rewrite bool_decide_eq_true_2; [done | by eexists].
Qed.

Lemma components_nonempty s : Fs.components s <> [].
Proof.
  destruct s as [|a s]; [done|]. cbn.
  destruct (Ascii.eqb a "/"); [done|]. by destruct (Fs.components s).
Qed.

Lemma components_plain s :
  PyStr.contains "/" s = false -> Fs.components s = [s].
Proof.
  induction s as [|a s IH]; [done|].
  change (PyStr.contains "/" (String a s))
    with (Ascii.eqb a "/" || PyStr.contains "/" s).
  intros [Ha Hs]%orb_false_iff. cbn. by rewrite Ha, (IH Hs).
Qed.

Lemma components_app_slash a b :
  PyStr.contains "/" a = false ->
  Fs.components (a +:+ String "/" b) = a :: Fs.components b.
Proof.
  induction a as [|x a IH].
  - intros _. reflexivity.
  - change (PyStr.contains "/" (String x a))
      with (Ascii.eqb x "/" || PyStr.contains "/" a).
    intros [Hx Ha]%orb_false_iff.
    change (String x a +:+ String "/" b)
      with (String x (a +:+ String "/" b)).
    cbn. by rewrite Hx, (IH Ha).
Qed.

Lemma valid_name_no_slash c :
  Fs.valid_name c = true -> PyStr.contains "/" c = false.
Proof.
  unfold Fs.valid_name. intros [_ H]%andb_true_iff.
  by apply negb_true_iff in H.
Qed.

Lemma valid_name_not_special c :
  Fs.valid_name c = true -> Fs.special c = false.
Proof.
  unfold Fs.valid_name. intros [H _]%andb_true_iff.
  by apply negb_true_iff in H.
Qed.

Lemma components_join a names :
  forallb Fs.valid_name (a :: names) = true ->
  Fs.components (Fs.join (a :: names)) = a :: names.
Proof.
  revert a. induction names as [|b names IH]; intros a.
  - cbn. rewrite andb_true_r. intros H%valid_name_no_slash.
    by apply components_plain.
  - intros [Ha Hrest]%andb_true_iff.
    change (Fs.join (a :: b :: names))
      with (a +:+ String "/" (Fs.join (b :: names))).
    rewrite components_app_slash by by apply valid_name_no_slash.
    by rewrite IH.
Qed.

Lemma walk_step fs cur c cs :
  Fs.special c = false ->
  Fs.walk fs cur (c :: cs)
  = if Fs.is_dir fs (cur ++ [c]) then Fs.walk fs (cur ++ [c]) cs else None.
Proof.
  unfold Fs.special. intros [[H1 H2]%orb_false_iff H3]%orb_false_iff.
  cbn. by rewrite H1, H2, H3.
Qed.

(** Walking down valid names that lead to a stored file. *)
Lemma walk_valid fs L names rest :
  forallb Fs.valid_name names = true ->
  rest <> [] ->
  forallb Fs.valid_name rest = true ->
  is_Some (Fs.entries fs !! (L ++ names ++ rest)) ->
  Fs.walk fs L names = Some (L ++ names).
Proof.
  revert L. induction names as [|c names IH]; intros L Hn Hne Hr HK.
  - cbn. by rewrite app_nil_r.
  - apply andb_true_iff in Hn as [Hc Hn].
    rewrite walk_step by by apply valid_name_not_special.
    assert (Hd : Fs.is_dir fs (L ++ [c]) = true).
    { unfold Fs.is_dir. rewrite !orb_true_iff. right.
      apply beneath_some. exists (L ++ (c :: names) ++ rest).
      split; [done|]. apply beneath_spec.
      destruct (names ++ rest) as [|x xs] eqn:E.
      { by destruct names, rest. }
      exists x, xs. split.
      - rewrite <- app_assoc. cbn. by rewrite E.
      - rewrite <- E, forallb_app. apply andb_true_iff. by split. }
    rewrite Hd. rewrite (IH (L ++ [c])); try done.
    + by rewrite <- app_assoc.
    + by rewrite <- !app_assoc.
Qed.

Lemma data_dir_is_dir fs : Fs.is_dir fs (Fs.cwd fs ++ [DATA_DIR]) = true.
Proof.
  unfold Fs.is_dir. rewrite !orb_true_iff. left. right.
  apply bool_decide_eq_true_2. unfold Fs.made_at_startup. by left.
Qed.

Lemma walk_data_dir fs cs :
  Fs.walk fs (Fs.cwd fs) (DATA_DIR :: cs)
  = Fs.walk fs (Fs.cwd fs ++ [DATA_DIR]) cs.
Proof. rewrite walk_step by reflexivity. by rewrite data_dir_is_dir. Qed.

Lemma startswith_data_dir x :
  PyStr.startswith "/" (DATA_DIR +:+ x) = false.
Proof. reflexivity. Qed.

Lemma removelast_cons {A} (a : A) l :
  l <> [] -> removelast (a :: l) = a :: removelast l.
Proof. by destruct l. Qed.

Lemma last_cons {A} (a d : A) l : l <> [] -> List.last (a :: l) d = List.last l d.
Proof. by destruct l. Qed.

(** Resolving a path that begins with the data directory. *)
Lemma resolve_under_data_dir fs x :
  Fs.resolve fs (DATA_DIR +:+ String "/" x)
  = match Fs.walk fs (Fs.cwd fs ++ [DATA_DIR])
            (removelast (Fs.components x)) with
    | Some d => Some (d, List.last (Fs.components x) "")
    | None => None
    end.
Proof.
  unfold Fs.resolve. rewrite startswith_data_dir.
  rewrite components_app_slash by reflexivity.
  rewrite removelast_cons, last_cons by apply components_nonempty.
  by rewrite walk_data_dir.
Qed.

(** A file directly in the data directory. *)
Lemma target_data_file fs name :
  Fs.valid_name name = true ->
  Fs.target fs (DATA_DIR +:+ String "/" name)
  = Some (Fs.cwd fs ++ [DATA_DIR; name]).
Proof.
  intros Hv. unfold Fs.target. rewrite resolve_under_data_dir.
  rewrite components_plain by by apply valid_name_no_slash.
  cbn. rewrite (valid_name_not_special _ Hv).
  by rewrite <- app_assoc.
Qed.

Lemma first_component_join a names :
  forallb Fs.valid_name (a :: names) = true ->
  first_component (Fs.join (a :: names)) = a.
Proof.
  intros [Ha _]%andb_true_iff. apply valid_name_no_slash in Ha.
  destruct names as [|b names].
  - by apply first_component_id.
  - by apply first_component_app_slash.
Qed.

Lemma json_name_valid f :
  PyStr.endswith_str ".json" f = true ->
  PyStr.contains "/" f = false ->
  Fs.valid_name f = true.
Proof.
  intros Hj Hs. unfold Fs.valid_name. rewrite Hs, andb_true_r.
  apply negb_true_iff. destruct (Fs.special f) eqn:E; [|done].
  unfold Fs.special in E. rewrite !orb_true_iff in E.
  destruct E as [[E|E]|E]; apply String.eqb_eq in E; subst; done.
Qed.

Lemma not_under_cwd fs f :
  bool_decide (is_Some (Fs.drop_prefix (Fs.cwd fs ++ [DATA_DIR; f])
                          (Fs.cwd fs))) = false
  /\ bool_decide (Fs.cwd fs ++ [DATA_DIR; f] ∈ Fs.made_at_startup fs) = false.
Proof.
  split; apply bool_decide_eq_false_2.
  - intros [r Hr%drop_prefix_Some].
    apply (f_equal List.length) in Hr. rewrite !length_app in Hr.
    cbn in Hr. lia.
  - unfold Fs.made_at_startup.
    intros [H|[H|[]%elem_of_nil]%elem_of_cons]%elem_of_cons;
      apply (f_equal List.length) in H; rewrite !length_app in H;
      cbn in H; lia.
Qed.

Lemma child_spec D K f :
  Fs.child D K = Some f
  <-> exists r, K = D ++ f :: r /\ forallb Fs.valid_name (f :: r) = true.
Proof.
  unfold Fs.child. split.
  - destruct (Fs.drop_prefix D K) as [[|c r]|] eqn:E; try done.
    destruct (forallb Fs.valid_name (c :: r)) eqn:Hv; [|done].
    intros [= ->]. apply drop_prefix_Some in E. eauto.
  - intros (r & -> & Hv). by rewrite drop_prefix_app, Hv.
Qed.

(** The directories of the model add no name to the data directory. *)
Lemma data_dir_children fs K f :
  K ∈ Fs.cwd fs :: Fs.made_at_startup fs ->
  Fs.child (Fs.cwd fs ++ [DATA_DIR]) K = Some f -> False.
Proof.
  unfold Fs.made_at_startup.
  intros HK (r & Hr & _)%child_spec. rewrite <- app_assoc in Hr.
  apply elem_of_cons in HK as [->|HK].
  { apply (f_equal List.length) in Hr. rewrite length_app in Hr.
    cbn in Hr. lia. }
  apply elem_of_cons in HK as [->|HK].
  { apply app_inv_head in Hr. discriminate Hr. }
  apply elem_of_cons in HK as [->|HK]; [|by apply elem_of_nil in HK].
  apply app_inv_head in Hr. discriminate Hr.
Qed.

Lemma listdir_elem fs f :
  f ∈ Fs.listdir fs (Fs.cwd fs ++ [DATA_DIR])
  <-> exists r,
        is_Some (Fs.entries fs !! ((Fs.cwd fs ++ [DATA_DIR]) ++ f :: r))
        /\ forallb Fs.valid_name (f :: r) = true.
Proof.
  unfold Fs.listdir. rewrite elem_of_remove_dups, list_elem_of_omap. split.
  - intros (K & [HK%key_elem|HK]%elem_of_app & Hf).
    + apply child_spec in Hf as (r & -> & Hv). eauto.
    + destruct (data_dir_children _ _ _ HK Hf).
  - intros (r & HK & Hv). exists ((Fs.cwd fs ++ [DATA_DIR]) ++ f :: r).
    split; [by apply elem_of_app; left; apply key_elem|].
    apply child_spec. eauto.
Qed.

(** The names in the data directory are the first components, after the
    directory, of the paths that lead to a stored file. *)
Lemma listed_iff fs f :
  PyStr.endswith_str ".json" f = true ->
  f ∈ Fs.listdir fs (Fs.cwd fs ++ [DATA_DIR])
  <-> exists path, is_Some (fs !! path) /\ dir_entry DATA_DIR path = Some f.
Proof.
  intros Hjson. rewrite listdir_elem. split.
  - intros (r & [v HK] & Hv).
    exists (DATA_DIR +:+ String "/" (Fs.join (f :: r))). split.
    + exists v. apply lookup_File, stat_File. split; [done|].
      exists ((Fs.cwd fs ++ [DATA_DIR]) ++ f :: r). split; [|done].
      unfold Fs.target. rewrite resolve_under_data_dir.
      rewrite components_join by done.
      assert (Hne : f :: r <> []) by done.
      destruct (exists_last Hne) as (names & lst & Hsplit).
      rewrite Hsplit, removelast_last, last_last.
      rewrite Hsplit, forallb_app in Hv. apply andb_true_iff in Hv as [Hn Hl].
      cbn in Hl. rewrite andb_true_r in Hl.
      rewrite (walk_valid fs _ names [lst]); try done.
      * by rewrite (valid_name_not_special _ Hl), <- app_assoc.
      * cbn. by rewrite Hl.
      * rewrite <- Hsplit. by eexists.
    + unfold dir_entry.
      change (DATA_DIR +:+ String "/" (Fs.join (f :: r)))
        with ((DATA_DIR +:+ "/") +:+ Fs.join (f :: r)).
      rewrite strip_prefix_app, first_component_join by done.
      apply andb_true_iff in Hv as [Hf _].
      apply valid_name_not_special in Hf. by destruct f.
  - intros (path & [v (Ht & L & HL & Hv)%lookup_File%stat_File] & Hentry).
    unfold dir_entry in Hentry.
    destruct (strip_prefix (DATA_DIR +:+ "/") path) as [rest|] eqn:Hpre;
      [|done].
    apply strip_prefix_Some in Hpre.
    assert (Hf : first_component rest = f).
    { destruct (first_component rest); [done | by injection Hentry]. }
    destruct (first_component_split rest) as [Hslash Hrest].
    rewrite Hf in Hslash, Hrest.
    assert (Hvalid : Fs.valid_name f = true) by by apply json_name_valid.
    change ((DATA_DIR +:+ "/") +:+ rest)
      with (DATA_DIR +:+ String "/" rest) in Hpre. subst path.
    unfold Fs.target in HL. rewrite resolve_under_data_dir in HL.
    destruct Hrest as [->|[x ->]].
    + rewrite components_plain in HL by done. cbn in HL.
      rewrite (valid_name_not_special _ Hvalid) in HL.
      injection HL as <-. exists []. split; [|by cbn; rewrite Hvalid].
      by eexists.
    + rewrite components_app_slash in HL by done.
      rewrite removelast_cons in HL by apply components_nonempty.
      rewrite walk_step in HL by by apply valid_name_not_special.
      destruct (Fs.is_dir fs ((Fs.cwd fs ++ [DATA_DIR]) ++ [f])) eqn:Hd;
        [|done].
      unfold Fs.is_dir in Hd. rewrite <- app_assoc in Hd. cbn [app] in Hd.
      destruct (not_under_cwd fs f) as [E1 E2].
      rewrite E1, E2 in Hd. cbn [orb] in Hd.
      apply beneath_some in Hd as (K & HK & (c & r & -> & Hr)%beneath_spec).
      exists (c :: r). split.
      * rewrite <- !app_assoc in HK. cbn [app] in HK.
        by rewrite <- app_assoc.
      * cbn [forallb]. by rewrite Hvalid.
Qed.

End FsFacts.

(** ** Dates *)

Section DateFacts.

Context {platform : Platform}.

Example ex_delhi : convert_date_for_delhi "2024-03-05" = Ret "05.03.2024".
Proof. reflexivity. Qed.
Example ex_bombay : convert_date_for_bombay "2024-3-5" = Ret "05-03-2024".
Proof. reflexivity. Qed.
Example ex_nclat1 : convert_date_for_nclat "2024-03-05" = Ret "05/03/2024".
Proof. reflexivity. Qed.
Example ex_nclat2 : convert_date_for_nclat "05-03-2024" = Ret "05/03/2024".
Proof. reflexivity. Qed.

(** Whatever the date, the tribunal's output format shows a slash. *)
Lemma strftime_slash d :
  PyStr.contains "/" (PyDate.strftime d PyDate.dmy_slash_format) = true.
Proof.
  unfold PyDate.dmy_slash_format. cbn [PyDate.strftime].
  apply contains_app_r. cbn [PyDate.print_directive].
  apply contains_here.
Qed.

Lemma parse_iso_to_slash_has_slash s out :
  parse_iso_to_slash s = Ret out -> PyStr.contains "/" out = true.
Proof.
  unfold parse_iso_to_slash.
  destruct (PyDate.strptime s PyDate.iso_format) as [d|e]; [|done].
  intros [= <-]. apply strftime_slash.
Qed.

Lemma convert_date_for_nclat_has_slash s out :
  convert_date_for_nclat s = Ret out -> PyStr.contains "/" out = true.
Proof.
  unfold convert_date_for_nclat.
  destruct (PyStr.contains "/" s) eqn:Hslash.
  { by intros [= <-]. }
  destruct (PyStr.contains "-" s).
  - destruct (String.get 2 s) as [c|]; [|done].
    destruct (Ascii.eqb c "-").
    + destruct (PyDate.strptime s PyDate.dmy_dash_format); [|done].
      intros [= <-]. apply strftime_slash.
    + apply parse_iso_to_slash_has_slash.
  - apply parse_iso_to_slash_has_slash.
Qed.

(** C8. The tribunal date normaliser sends "2024-03-05" and "05-03-2024"
    to "05/03/2024", leaves "05/03/2024" as it is, and is idempotent:
    applied to any string it returned, it returns that string again. *)
Theorem convert_date_for_nclat_idempotent :
  convert_date_for_nclat "2024-03-05" = Ret "05/03/2024"
  /\ convert_date_for_nclat "05-03-2024" = Ret "05/03/2024"
  /\ convert_date_for_nclat "05/03/2024" = Ret "05/03/2024"
  /\ forall s out,
       convert_date_for_nclat s = Ret out ->
       convert_date_for_nclat out = Ret out.
Proof.
  repeat split; try reflexivity.
  intros s out H%convert_date_for_nclat_has_slash.
  unfold convert_date_for_nclat. by rewrite H.
Qed.

(** *** What the parser consumes *)

Lemma match_seq_split cs s m r :
  PyDate.match_seq cs s = Some (m, r) -> s = m +:+ r.
Proof.
  revert s m r. induction cs as [|c cs IH]; intros s m r; simpl.
  - by intros [= <- <-].
  - destruct s as [|a s]; [done|]. destruct (c a); [|done].
    destruct (PyDate.match_seq cs s) as [[m' r']|] eqn:E; [|done].
    intros [= <- <-]. by rewrite (IH _ _ _ E).
Qed.

Lemma match_seq_rejects ch cs s m r :
  forallb (fun c : PyDate.cls => negb (c ch)) cs = true ->
  PyDate.match_seq cs s = Some (m, r) ->
  PyStr.contains ch m = false.
Proof.
  revert s m r. induction cs as [|c cs IH]; intros s m r; simpl.
  - by intros _ [= <- <-].
  - intros [Hc Hcs]%andb_true_iff.
    destruct s as [|a s]; [done|]. destruct (c a) eqn:Ha; [|done].
    destruct (PyDate.match_seq cs s) as [[m' r']|] eqn:E; [|done].
    intros [= <- <-]. simpl. rewrite (IH _ _ _ Hcs E), orb_false_r.
    destruct (Ascii.eqb_spec a ch) as [->|]; [|done].
    by rewrite Ha in Hc.
Qed.

(** The character at position [i] of the input satisfies the class at
    position [i]. *)
Lemma match_seq_get cs s m r i (c : PyDate.cls) :
  PyDate.match_seq cs s = Some (m, r) ->
  cs !! i = Some c ->
  exists a, String.get i s = Some a /\ c a = true.
Proof.
  revert s m r i. induction cs as [|c0 cs IH]; intros s m r i; simpl; [done|].
  destruct s as [|a s]; [done|]. destruct (c0 a) eqn:Ha; [|done].
  destruct (PyDate.match_seq cs s) as [[m' r']|] eqn:E; [|done].
  intros _. destruct i as [|i]; simpl.
  - intros [= <-]. eauto.
  - by apply IH with m' r'.
Qed.

Lemma match_directive_In d s t r :
  In (t, r) (PyDate.match_directive d s) ->
  exists alt, In alt (PyDate.alternatives d)
              /\ PyDate.match_seq alt s = Some (t, r).
Proof.
  unfold PyDate.match_directive.
  intros (alt & Halt & Hm)%list_elem_of_In%list_elem_of_omap.
  exists alt. split; [by apply list_elem_of_In | done].
Qed.

Lemma regex_match_cons d fmt s :
  PyDate.regex_match (d :: fmt) s
  = flat_map
      (fun '(text, r) =>
         map (fun '(gs, r') => (PyDate.capture d text ++ gs, r'))
             (PyDate.regex_match fmt r))
      (PyDate.match_directive d s).
Proof. reflexivity. Qed.

(** Every match of a format splits the input into the text it consumed
    and the rest, and the consumed text holds no character that the
    format rejects. *)
Lemma regex_match_consumed fmt s found rest :
  In (found, rest) (PyDate.regex_match fmt s) ->
  exists m, s = m +:+ rest
            /\ forall ch, PyDate.rejects ch fmt = true ->
                          PyStr.contains ch m = false.
Proof.
  revert s found rest. induction fmt as [|d fmt IH]; intros s found rest.
  - simpl. intros [[= <- <-]|[]]. by exists "".
  - rewrite regex_match_cons.
    intros ([t r] & Hd & Hin)%in_flat_map.
    apply in_map_iff in Hin as ([gs r'] & [= <- <-] & Hrest).
    apply match_directive_In in Hd as (alt & Halt & Hm).
    destruct (IH _ _ _ Hrest) as (m & -> & Hrej).
    exists (t +:+ m). split.
    + rewrite (match_seq_split _ _ _ _ Hm). by rewrite append_assoc.
    + intros ch Hch. cbn in Hch. apply andb_true_iff in Hch as [Hd Hfmt].
      rewrite contains_app, (Hrej _ Hfmt), orb_false_r.
      rewrite forallb_forall in Hd.
      by apply (match_seq_rejects ch alt s t (m +:+ r')); [apply Hd|].
Qed.

(** *** What a successful parse tells *)

Lemma strptime_inv s fmt dt :
  PyDate.strptime s fmt = Ret dt ->
  exists found tl,
    PyDate.regex_match fmt s = (found, "") :: tl
    /\ PyDate.valid_date (PyDate.year dt) (PyDate.month dt) (PyDate.day dt)
       = true.
Proof.
  unfold PyDate.strptime.
  destruct (PyDate.regex_match fmt s) as [|[found rest] tl]; [done|].
  destruct rest; [|done]. cbn [PyStr.truthy].
  destruct (PyDate.group PyDate.dir_Y found ≫= PyDate.int) as [y|]; [|done].
  destruct (PyDate.group PyDate.dir_m found ≫= PyDate.int) as [m|];
    [|by destruct (PyDate.group PyDate.dir_d found ≫= PyDate.int)].
  destruct (PyDate.group PyDate.dir_d found ≫= PyDate.int) as [d|]; [|done].
  destruct (PyDate.valid_date y m d) eqn:Hv; [|done].
  intros [= <-]. eauto.
Qed.

Lemma strptime_raises s fmt e :
  PyDate.strptime s fmt = Raise e -> exists msg, e = ValueError msg.
Proof.
  unfold PyDate.strptime.
  destruct (PyDate.regex_match fmt s) as [|[found rest] tl].
  { intros [= <-]. eauto. }
  destruct (PyStr.truthy rest).
  { intros [= <-]. eauto. }
  destruct (PyDate.group PyDate.dir_Y found ≫= PyDate.int) as [y|];
    [|intros [= <-]; eauto].
  destruct (PyDate.group PyDate.dir_m found ≫= PyDate.int) as [m|];
    [|destruct (PyDate.group PyDate.dir_d found ≫= PyDate.int);
      intros [= <-]; eauto].
  destruct (PyDate.group PyDate.dir_d found ≫= PyDate.int) as [d|];
    [|intros [= <-]; eauto].
  destruct (PyDate.valid_date y m d); [done|]. intros [= <-]. eauto.
Qed.

(** A parsed input holds no character that the format rejects. *)
Lemma strptime_rejects s fmt dt ch :
  PyDate.strptime s fmt = Ret dt ->
  PyDate.rejects ch fmt = true ->
  PyStr.contains ch s = false.
Proof.
  intros (found & tl & Hm & _)%strptime_inv Hch.
  destruct (regex_match_consumed fmt s found "") as (m & -> & Hrej).
  { rewrite Hm. by left. }
  rewrite append_nil_r. by apply Hrej.
Qed.

(** An input in ISO form has a digit in third place. *)
Lemma strptime_iso_third s dt :
  PyDate.strptime s PyDate.iso_format = Ret dt ->
  exists c, String.get 2 s = Some c /\ PyDate.digit c = true.
Proof.
  intros (found & tl & Hm & _)%strptime_inv.
  unfold PyDate.iso_format in Hm. rewrite regex_match_cons in Hm.
  assert (Hin : In (found, "") ((found, "") :: tl)) by by left.
  rewrite <- Hm in Hin.
  apply in_flat_map in Hin as ([t r] & Hd & _).
  apply match_directive_In in Hd as (alt & [<-|[]] & Hseq).
  by apply (match_seq_get _ _ _ _ 2 PyDate.digit) in Hseq.
Qed.

Lemma digit_not_dash c : PyDate.digit c = true -> Ascii.eqb c "-" = false.
Proof.
  intros H. destruct (Ascii.eqb_spec c "-") as [->|]; [|done].
  by vm_compute in H.
Qed.

(** *** What the printer writes *)

Ltac digit_cases n :=
  unfold PyDate.digit_char;
  let k := fresh "k" in
  let Hk := fresh "Hk" in
  assert (Hk : n mod 10 < 10) by (apply Nat.mod_upper_bound; lia);
  generalize dependent (n mod 10); intros k Hk;
  do 10 (destruct k as [|k]; [try reflexivity|]); [lia].

Lemma digit_digit_char n : PyDate.digit (PyDate.digit_char n) = true.
Proof. digit_cases n. Qed.

Lemma isspace_digit_char n : PyStr.isspace (PyDate.digit_char n) = false.
Proof. digit_cases n. Qed.

Lemma digit_char_value n :
  nat_of_ascii (PyDate.digit_char n) - 48 = n mod 10.
Proof. digit_cases n. Qed.

Lemma digit_char_differs n c :
  PyDate.digit c = false -> Ascii.eqb (PyDate.digit_char n) c = false.
Proof.
  intros H. destruct (Ascii.eqb_spec (PyDate.digit_char n) c) as [<-|]; [|done].
  by rewrite digit_digit_char in H.
Qed.

Lemma replace_two_digits x y n r :
  PyDate.digit x = false ->
  PyStr.replace x y (PyDate.two_digits n +:+ r)
  = PyDate.two_digits n +:+ PyStr.replace x y r.
Proof.
  intros H. unfold PyDate.two_digits. cbn [PyStr.replace String.append].
  change (String ?a (String ?b "") +:+ ?t) with (String a (String b t)).
  cbn [PyStr.replace]. by rewrite !digit_char_differs.
Qed.

Lemma replace_four_digits x y n r :
  PyDate.digit x = false ->
  PyStr.replace x y (PyDate.four_digits n +:+ r)
  = PyDate.four_digits n +:+ PyStr.replace x y r.
Proof.
  intros H. unfold PyDate.four_digits, PyDate.two_digits.
  change (String ?a (String ?b (String ?c (String ?d ""))) +:+ ?t)
    with (String a (String b (String c (String d t)))).
  cbn [PyStr.replace]. by rewrite !digit_char_differs.
Qed.

Lemma contains_two_digits c n r :
  PyDate.digit c = false ->
  PyStr.contains c (PyDate.two_digits n +:+ r) = PyStr.contains c r.
Proof.
  intros H. unfold PyDate.two_digits.
  change (String ?a (String ?b "") +:+ ?t) with (String a (String b t)).
  cbn [PyStr.contains]. by rewrite !digit_char_differs.
Qed.

Lemma contains_four_digits c n :
  PyDate.digit c = false ->
  PyStr.contains c (PyDate.four_digits n) = false.
Proof.
  intros H. unfold PyDate.four_digits, PyDate.two_digits.
  cbn [PyStr.contains]. by rewrite !digit_char_differs.
Qed.

Lemma four_digits_app y r :
  PyDate.four_digits y +:+ r
  = String (PyDate.digit_char (y / 1000))
      (String (PyDate.digit_char (y / 100))
         (String (PyDate.digit_char (y / 10))
            (String (PyDate.digit_char y) r))).
Proof. reflexivity. Qed.

Lemma two_digits_app n r :
  PyDate.two_digits n +:+ r
  = String (PyDate.digit_char (n / 10)) (String (PyDate.digit_char n) r).
Proof. reflexivity. Qed.

Lemma print_year_padded y :
  (1000 <=? y) || pads_year = true ->
  PyDate.print_year y = PyDate.four_digits y.
Proof. intros H. unfold PyDate.print_year. by rewrite H. Qed.

Lemma contains_unpadded c n :
  PyDate.digit c = false -> PyStr.contains c (PyDate.unpadded n) = false.
Proof.
  intros H. unfold PyDate.unpadded, PyDate.two_digits.
  destruct (n <? 10); [|destruct (n <? 100)];
    cbn [PyStr.contains]; by rewrite !digit_char_differs.
Qed.

Lemma contains_print_year c y :
  PyDate.digit c = false -> PyStr.contains c (PyDate.print_year y) = false.
Proof.
  intros H. unfold PyDate.print_year.
  destruct ((1000 <=? y) || pads_year);
    [by apply contains_four_digits | by apply contains_unpadded].
Qed.

Lemma replace_unchanged x y s :
  PyStr.contains x s = false -> PyStr.replace x y s = s.
Proof.
  induction s as [|a s IH]; [done|]. cbn.
  intros [Ha Hs]%orb_false_iff. by rewrite Ha, IH.
Qed.

Lemma replace_print_year x y n :
  PyDate.digit x = false ->
  PyStr.replace x y (PyDate.print_year n) = PyDate.print_year n.
Proof. intros H. by apply replace_unchanged, contains_print_year. Qed.

(** A date printed day first, with separator [sep]. *)
Lemma strftime_day_first dt sep :
  PyDate.strftime dt
    [PyDate.dir_d; PyDate.dir_lit sep; PyDate.dir_m; PyDate.dir_lit sep;
     PyDate.dir_Y]
  = PyDate.two_digits (PyDate.day dt)
    +:+ String sep (PyDate.two_digits (PyDate.month dt)
                    +:+ String sep (PyDate.print_year (PyDate.year dt))).
Proof.
  cbn [PyDate.strftime PyDate.print_directive].
  rewrite append_nil_r. reflexivity.
Qed.

Lemma replace_separator dt sep sep' :
  PyDate.digit sep = false ->
  PyStr.replace sep sep'
    (PyDate.strftime dt
       [PyDate.dir_d; PyDate.dir_lit sep; PyDate.dir_m; PyDate.dir_lit sep;
        PyDate.dir_Y])
  = PyDate.strftime dt
      [PyDate.dir_d; PyDate.dir_lit sep'; PyDate.dir_m; PyDate.dir_lit sep';
       PyDate.dir_Y].
Proof.
  intros H. rewrite !strftime_day_first.
  rewrite replace_two_digits by done. cbn [PyStr.replace].
  rewrite Ascii.eqb_refl.
  rewrite replace_two_digits by done. cbn [PyStr.replace].
  rewrite Ascii.eqb_refl.
  by rewrite replace_print_year.
Qed.

Lemma strftime_day_first_length dt sep :
  (1000 <=? PyDate.year dt) || pads_year = true ->
  String.length
    (PyDate.strftime dt
       [PyDate.dir_d; PyDate.dir_lit sep; PyDate.dir_m; PyDate.dir_lit sep;
        PyDate.dir_Y]) = 10.
Proof.
  intros H. rewrite strftime_day_first, print_year_padded by done.
  reflexivity.
Qed.

Lemma strftime_day_first_short dt sep :
  String.length
    (PyDate.strftime dt
       [PyDate.dir_d; PyDate.dir_lit sep; PyDate.dir_m; PyDate.dir_lit sep;
        PyDate.dir_Y]) <= 10.
Proof.
  rewrite strftime_day_first, two_digits_app. cbn [String.length].
  rewrite two_digits_app. cbn [String.length].
  assert (String.length (PyDate.print_year (PyDate.year dt)) <= 4); [|lia].
  unfold PyDate.print_year, PyDate.unpadded.
  destruct ((1000 <=? PyDate.year dt) || pads_year); [cbn; lia|].
  destruct (PyDate.year dt <? 10); [cbn; lia|].
  destruct (PyDate.year dt <? 100); cbn; lia.
Qed.

(** *** The three helpers on one ISO date *)

Lemma nclat_of_iso s dt :
  PyDate.strptime s PyDate.iso_format = Ret dt ->
  convert_date_for_nclat s
  = Ret (PyDate.strftime dt PyDate.dmy_slash_format).
Proof.
  intros H. unfold convert_date_for_nclat.
  rewrite (strptime_rejects s _ dt "/" H) by reflexivity.
  assert (Hiso : parse_iso_to_slash s
                 = Ret (PyDate.strftime dt PyDate.dmy_slash_format)).
  { unfold parse_iso_to_slash. by rewrite H. }
  destruct (PyStr.contains "-" s); [|done].
  destruct (strptime_iso_third s dt H) as (c & -> & Hc).
  by rewrite (digit_not_dash c Hc).
Qed.

(** X1. On every input the ISO parser accepts, the three helpers print the
    same calendar date, day first, and differ only in the separator: "."
    for delhi, "-" for bombay, "/" for the tribunal.  The output has at
    most ten characters, and exactly ten where the platform pads the
    year. *)
Theorem converters_agree s out :
  convert_date_for_delhi s = Ret out ->
  convert_date_for_bombay s = Ret (PyStr.replace "." "-" out)
  /\ convert_date_for_nclat s = Ret (PyStr.replace "." "/" out)
  /\ String.length out <= 10
  /\ (pads_year = true -> String.length out = 10).
Proof.
  unfold convert_date_for_delhi, convert_date_for_bombay.
  destruct (PyDate.strptime s PyDate.iso_format) as [dt|e] eqn:H; [|done].
  intros Hout.
  assert (out = PyDate.strftime dt PyDate.dmy_dot_format) as ->
    by congruence.
  split; [|split; [|split]].
  - unfold PyDate.dmy_dot_format.
    by rewrite replace_separator by reflexivity.
  - unfold PyDate.dmy_dot_format.
    rewrite replace_separator by reflexivity. by apply nclat_of_iso.
  - apply strftime_day_first_short.
  - intros Hpad. apply strftime_day_first_length.
    rewrite Hpad. apply orb_true_r.
Qed.

(** X4. The tribunal helper fails with an index error exactly on an input
    without "/" that holds a "-" and is shorter than three characters;
    every other failure is a value error. *)
Theorem convert_date_for_nclat_errors s e :
  convert_date_for_nclat s = Raise e ->
  (PyStr.contains "/" s = false
   /\ exists msg, e = ValueError msg \/ e = IndexError msg)
  /\ ((exists msg, e = IndexError msg)
      <-> PyStr.contains "-" s = true /\ String.length s < 3).
Proof.
  unfold convert_date_for_nclat, parse_iso_to_slash.
  destruct (PyStr.contains "/" s); [done|].
  assert (Hshort : String.get 2 s = None <-> String.length s < 3).
  { destruct s as [|a [|b [|c s]]]; cbn; split; try done; lia. }
  destruct (PyStr.contains "-" s).
  - destruct (String.get 2 s) as [c|] eqn:Hget.
    + assert (Hlong : ~ String.length s < 3).
      { intros Hl. apply Hshort in Hl. congruence. }
      intros H.
      assert (exists msg, e = ValueError msg) as [msg ->].
      { destruct (Ascii.eqb c "-").
        - destruct (PyDate.strptime s PyDate.dmy_dash_format) eqn:E; [done|].
          injection H as <-. by eapply strptime_raises.
        - destruct (PyDate.strptime s PyDate.iso_format) eqn:E; [done|].
          injection H as <-. by eapply strptime_raises. }
      split; [eauto|]. split; [by intros [? [=]] | by intros [_ ?]].
    + intros [= <-]. split; [eauto|]. split; [|eauto].
      intros _. split; [done|]. by apply Hshort.
  - destruct (PyDate.strptime s PyDate.iso_format) eqn:E; [done|].
    intros [= <-]. destruct (strptime_raises _ _ _ E) as [msg ->].
    split; [eauto|]. split; [by intros [? [=]] | by intros [[=] _]].
Qed.

(** *** The high-court helpers are not idempotent *)

Lemma iso_needs_no dt0 out ch :
  PyDate.rejects ch PyDate.iso_format = true ->
  PyStr.contains ch out = true ->
  PyDate.strptime out PyDate.iso_format <> Ret dt0.
Proof.
  intros Hrej Hin H. by rewrite (strptime_rejects _ _ _ ch H Hrej) in Hin.
Qed.

Lemma iso_fails_helpers out :
  (forall dt0, PyDate.strptime out PyDate.iso_format <> Ret dt0) ->
  is_ret (convert_date_for_delhi out) = false
  /\ is_ret (convert_date_for_bombay out) = false.
Proof.
  intros H. unfold convert_date_for_delhi, convert_date_for_bombay.
  destruct (PyDate.strptime out PyDate.iso_format) as [dt0|e] eqn:E; [|done].
  by destruct (H dt0).
Qed.

Lemma day_first_contains_sep dt sep :
  PyStr.contains sep
    (PyDate.strftime dt
       [PyDate.dir_d; PyDate.dir_lit sep; PyDate.dir_m; PyDate.dir_lit sep;
        PyDate.dir_Y]) = true.
Proof.
  rewrite strftime_day_first. apply contains_app_r, contains_here.
Qed.

(** X2. The delhi and bombay helpers accept ISO input only: each of them
    fails on every string that any of the three helpers returned.  The
    tribunal helper, for its part, fails on every string the delhi helper
    returned. *)
Theorem high_court_helpers_reject_outputs s out :
  (convert_date_for_delhi s = Ret out
   \/ convert_date_for_bombay s = Ret out
   \/ convert_date_for_nclat s = Ret out ->
   is_ret (convert_date_for_delhi out) = false
   /\ is_ret (convert_date_for_bombay out) = false)
  /\ (convert_date_for_delhi s = Ret out ->
      is_ret (convert_date_for_nclat out) = false).
Proof.
  split.
  - intros H. apply iso_fails_helpers. intros dt0.
    destruct H as [H|[H|H]].
    + unfold convert_date_for_delhi in H.
      destruct (PyDate.strptime s PyDate.iso_format) as [dt|]; [|done].
      assert (out = PyDate.strftime dt PyDate.dmy_dot_format) as ->
        by congruence.
      apply (iso_needs_no _ _ "."); [reflexivity|].
      apply day_first_contains_sep.
    + unfold convert_date_for_bombay in H.
      destruct (PyDate.strptime s PyDate.iso_format) as [dt|]; [|done].
      assert (out = PyDate.strftime dt PyDate.dmy_dash_format) as ->
        by congruence.
      intros (c & Hget & Hc)%strptime_iso_third.
      unfold PyDate.dmy_dash_format in Hget.
      rewrite strftime_day_first in Hget. injection Hget as <-.
      by vm_compute in Hc.
    + apply convert_date_for_nclat_has_slash in H.
      by apply (iso_needs_no _ _ "/").
  - unfold convert_date_for_delhi.
    destruct (PyDate.strptime s PyDate.iso_format) as [dt|]; [|done].
    intros H.
    assert (out = PyDate.strftime dt PyDate.dmy_dot_format) as ->
      by congruence.
    assert (Hiso : forall dt0,
               PyDate.strptime (PyDate.strftime dt PyDate.dmy_dot_format)
                 PyDate.iso_format <> Ret dt0).
    { intros dt0. apply (iso_needs_no _ _ "."); [reflexivity|].
      apply day_first_contains_sep. }
    assert (Hp : is_ret (parse_iso_to_slash
                           (PyDate.strftime dt PyDate.dmy_dot_format))
                 = false).
    { unfold parse_iso_to_slash.
      destruct (PyDate.strptime _ PyDate.iso_format) as [dt0|] eqn:E;
        [by destruct (Hiso dt0) | done]. }
    unfold convert_date_for_nclat.
    assert (Hno : forall ch, PyDate.digit ch = false ->
                    Ascii.eqb "." ch = false ->
                    PyStr.contains ch
                      (PyDate.strftime dt PyDate.dmy_dot_format) = false).
    { intros ch Hd Hne. unfold PyDate.dmy_dot_format.
      rewrite strftime_day_first.
      rewrite contains_two_digits by done. cbn [PyStr.contains].
      rewrite Hne. cbn [orb].
      rewrite contains_two_digits by done. cbn [PyStr.contains].
      rewrite Hne. cbn [orb]. by apply contains_print_year. }
    rewrite (Hno "/"%char), (Hno "-"%char) by reflexivity. exact Hp.
Qed.

(** *** Printing, then parsing *)

Lemma regex_match_head d fmt s t r tl gs rest tl2 :
  PyDate.match_directive d s = (t, r) :: tl ->
  PyDate.regex_match fmt r = (gs, rest) :: tl2 ->
  exists tl3,
    PyDate.regex_match (d :: fmt) s = (PyDate.capture d t ++ gs, rest) :: tl3.
Proof.
  intros Hd Hf. rewrite regex_match_cons, Hd. cbn [flat_map].
  rewrite Hf. cbn [map app]. eauto.
Qed.

Lemma match_directive_lit c r :
  PyDate.match_directive (PyDate.dir_lit c) (String c r)
  = [(String c "", r)].
Proof.
  unfold PyDate.match_directive. cbn.
  unfold PyDate.exactly. by rewrite Ascii.eqb_refl.
Qed.

Lemma match_directive_Y_print y r :
  PyDate.match_directive PyDate.dir_Y (PyDate.four_digits y +:+ r)
  = [(PyDate.four_digits y, r)].
Proof.
  rewrite four_digits_app. unfold PyDate.match_directive.
  cbn -[PyDate.digit PyDate.digit_char Nat.div].
  by rewrite !digit_digit_char.
Qed.

Lemma match_directive_m_print m r :
  1 <= m <= 12 ->
  exists tl,
    PyDate.match_directive PyDate.dir_m (PyDate.two_digits m +:+ r)
    = (PyDate.two_digits m, r) :: tl.
Proof.
  intros [Hlo Hhi].
  do 13 (destruct m as [|m]; [try lia; eexists; reflexivity|]). lia.
Qed.

Lemma match_directive_d_print d r :
  1 <= d <= 31 ->
  exists tl,
    PyDate.match_directive PyDate.dir_d (PyDate.two_digits d +:+ r)
    = (PyDate.two_digits d, r) :: tl.
Proof.
  intros [Hlo Hhi].
  do 32 (destruct d as [|d]; [try lia; eexists; reflexivity|]). lia.
Qed.

Lemma digits_value_digit_char acc k s :
  PyDate.digits_value acc (String (PyDate.digit_char k) s)
  = PyDate.digits_value (10 * acc + k mod 10) s.
Proof.
  cbn [PyDate.digits_value]. by rewrite digit_digit_char, digit_char_value.
Qed.

Lemma int_two_digits n : n < 100 -> PyDate.int (PyDate.two_digits n) = Some n.
Proof.
  intros Hn. unfold PyDate.int. rewrite strip_no_space.
  2:{ repeat constructor; apply isspace_digit_char. }
  unfold PyDate.two_digits. rewrite !digits_value_digit_char.
  cbn [PyDate.digits_value]. f_equal.
  pose proof (Nat.div_mod_eq n 10).
  assert (n / 10 < 10) by (apply Nat.Div0.div_lt_upper_bound; lia).
  rewrite (Nat.mod_small (n / 10)) by done. lia.
Qed.

Lemma int_four_digits n :
  n < 100 * 100 -> PyDate.int (PyDate.four_digits n) = Some n.
Proof.
  intros Hn. unfold PyDate.int. rewrite strip_no_space.
  2:{ repeat constructor; apply isspace_digit_char. }
  unfold PyDate.four_digits, PyDate.two_digits.
  rewrite !digits_value_digit_char.
  cbn [PyDate.digits_value]. f_equal.
  pose proof (Nat.div_mod_eq n 10) as H1.
  pose proof (Nat.div_mod_eq (n / 10) 10) as H2.
  rewrite Nat.Div0.div_div in H2. change (10 * 10) with 100 in H2.
  pose proof (Nat.div_mod_eq (n / 100) 10) as H3.
  rewrite Nat.Div0.div_div in H3. change (100 * 10) with 1000 in H3.
  assert (n / 1000 < 10) by (apply Nat.Div0.div_lt_upper_bound; lia).
  rewrite (Nat.mod_small (n / 1000)) by done. lia.
Qed.

Lemma valid_date_bounds y m d :
  PyDate.valid_date y m d = true ->
  y < 100 * 100 /\ 1 <= m <= 12 /\ 1 <= d <= 31.
Proof.
  unfold PyDate.valid_date. rewrite !andb_true_iff, !Nat.leb_le.
  intros (((((Hy1 & Hy2) & Hm1) & Hm2) & Hd1) & Hd2).
  change 9999 with (99 * 100 + 99) in Hy2.
  split; [lia|]. split; [lia|]. split; [done|].
  assert (PyDate.days_in_month y m <= 31); [|lia].
  unfold PyDate.days_in_month. destruct (PyDate.is_leap y);
    do 13 (destruct m as [|m]; [lia|]); lia.
Qed.

(** A calendar date printed as DD-MM-YYYY, the year in four digits,
    parses back to itself. *)
Lemma strptime_strftime_dash dt :
  PyDate.valid_date (PyDate.year dt) (PyDate.month dt) (PyDate.day dt) = true ->
  (1000 <=? PyDate.year dt) || pads_year = true ->
  PyDate.strptime (PyDate.strftime dt PyDate.dmy_dash_format)
    PyDate.dmy_dash_format = Ret dt.
Proof.
  intros Hv Hfour. destruct (valid_date_bounds _ _ _ Hv) as (Hy & Hm & Hd).
  unfold PyDate.dmy_dash_format at 1.
  rewrite strftime_day_first, print_year_padded by done.
  destruct dt as [y m d]; cbn [PyDate.year PyDate.month PyDate.day] in *.
  assert (HY : PyDate.regex_match [PyDate.dir_Y] (PyDate.four_digits y)
               = [([(PyDate.dir_Y, PyDate.four_digits y)], "")]).
  { rewrite regex_match_cons.
    rewrite <- (append_nil_r (PyDate.four_digits y)) at 1.
    by rewrite match_directive_Y_print. }
  destruct (regex_match_head (PyDate.dir_lit "-") [PyDate.dir_Y]
              (String "-" (PyDate.four_digits y)) _ _ _ _ _ _
              (match_directive_lit "-" _) HY) as [tl1 H1].
  destruct (match_directive_m_print m
              (String "-" (PyDate.four_digits y)) Hm) as [tlm Hmm].
  destruct (regex_match_head _ _ _ _ _ _ _ _ _ Hmm H1) as [tl2 H2].
  destruct (regex_match_head (PyDate.dir_lit "-") _
              (String "-" (PyDate.two_digits m
                           +:+ String "-" (PyDate.four_digits y)))
              _ _ _ _ _ _ (match_directive_lit "-" _) H2) as [tl3 H3].
  destruct (match_directive_d_print d
              (String "-" (PyDate.two_digits m
                           +:+ String "-" (PyDate.four_digits y)))
              Hd) as [tld Hdd].
  destruct (regex_match_head _ _ _ _ _ _ _ _ _ Hdd H3) as [tl4 H4].
  unfold PyDate.strptime, PyDate.dmy_dash_format. rewrite H4.
  cbn -[PyDate.int PyDate.two_digits PyDate.four_digits PyDate.valid_date].
  rewrite !int_two_digits, int_four_digits by lia.
  cbn -[PyDate.valid_date]. by rewrite Hv.
Qed.

Lemma strptime_valid s fmt dt :
  PyDate.strptime s fmt = Ret dt ->
  PyDate.valid_date (PyDate.year dt) (PyDate.month dt) (PyDate.day dt) = true.
Proof. by intros (? & ? & _ & ?)%strptime_inv. Qed.

Lemma day_first_full_length dt sep :
  String.length
    (PyDate.strftime dt
       [PyDate.dir_d; PyDate.dir_lit sep; PyDate.dir_m; PyDate.dir_lit sep;
        PyDate.dir_Y]) = 10 ->
  (1000 <=? PyDate.year dt) || pads_year = true.
Proof.
  rewrite strftime_day_first, two_digits_app. cbn [String.length].
  rewrite two_digits_app. cbn [String.length].
  unfold PyDate.print_year, PyDate.unpadded.
  destruct ((1000 <=? PyDate.year dt) || pads_year); [done|].
  destruct (PyDate.year dt <? 10); [cbn; lia|].
  destruct (PyDate.year dt <? 100); cbn; lia.
Qed.

(** X3. The tribunal helper takes what the bombay helper returns when
    that is a full DD-MM-YYYY string of ten characters: it reshapes the
    string to slash form, which is also what it returns on the ISO input
    itself. *)
Theorem nclat_after_bombay s out :
  convert_date_for_bombay s = Ret out ->
  String.length out = 10 ->
  convert_date_for_nclat out = Ret (PyStr.replace "-" "/" out)
  /\ convert_date_for_nclat out = convert_date_for_nclat s.
Proof.
  unfold convert_date_for_bombay.
  destruct (PyDate.strptime s PyDate.iso_format) as [dt|] eqn:Hs; [|done].
  intros H Hlen.
  assert (out = PyDate.strftime dt PyDate.dmy_dash_format) as ->
    by congruence.
  apply day_first_full_length in Hlen.
  rewrite (nclat_of_iso _ _ Hs).
  assert (convert_date_for_nclat (PyDate.strftime dt PyDate.dmy_dash_format)
          = Ret (PyDate.strftime dt PyDate.dmy_slash_format)) as ->.
  { unfold convert_date_for_nclat.
    rewrite (strptime_strftime_dash dt (strptime_valid _ _ _ Hs) Hlen).
    unfold PyDate.dmy_dash_format at 1 2 3. rewrite strftime_day_first.
    rewrite contains_two_digits by reflexivity. cbn [PyStr.contains].
    cbn [Ascii.eqb Bool.eqb andb orb].
    rewrite contains_two_digits by reflexivity. cbn [PyStr.contains].
    cbn [Ascii.eqb Bool.eqb andb orb].
    rewrite contains_print_year by reflexivity.
    rewrite contains_app_r by apply contains_here.
    unfold PyDate.dmy_dash_format. rewrite strftime_day_first.
    rewrite two_digits_app. cbn [String.get]. reflexivity. }
  split; [|done].
  unfold PyDate.dmy_dash_format, PyDate.dmy_slash_format.
  by rewrite replace_separator.
Qed.

End DateFacts.

(** ** Handlers *)

Section AppFacts.

Context {platform : Platform}.
Context {Rec : Type} `{!EqDecision Rec} {World : Type}.
Variable adapter : Call -> World -> outcome (list Rec) * World.

Implicit Types (st : State Rec World) (results : list Rec).

Lemma events_of_app {A} (m : M Rec World A) st evs :
  trace (m st).2 = trace st ++ evs -> events_of m st = evs.
Proof.
  intros H. unfold events_of. rewrite H. by rewrite drop_app_length.
Qed.

(** *** The top-court monitor, case by case *)

Lemma supreme_monitor_raise req st e w :
  adapter (monitor_call req) (world st) = (Raise e, w) ->
  supreme_monitor adapter req st
  = (Raise e,
     {| world := w; files := files st;
        trace := trace st ++ [EvCall (monitor_call req)] |}).
Proof.
  intros H. unfold supreme_monitor, bind, invoke.
  fold (monitor_call req). by rewrite H.
Qed.

Lemma stored_stat st req :
  stored st req
  = match Fs.stat (files st) (snapshot_path (keyword req) (mode req)) with
    | Fs.File old_data => old_data
    | _ => []
    end.
Proof. unfold stored, lookup, Fs.lookup. by destruct (Fs.stat _ _). Qed.

(** A poll whose scrape returned, in one equation. *)
Lemma supreme_monitor_run req st C w :
  adapter (monitor_call req) (world st) = (Ret C, w) ->
  let path := snapshot_path (keyword req) (mode req) in
  let name := monitor_filename (PyStr.strip (keyword req)) (mode req) in
  let scraped :=
    {| world := w; files := files st;
       trace := trace st ++ [EvCall (monitor_call req)] |} in
  supreme_monitor adapter req st
  = match Fs.stat (files st) path with
    | Fs.Dir => (Raise (OSError "Is a directory"), scraped)
    | _ =>
        if decide (stored st req = C) then
          (Ret {| status := "no_change";
                  message := "No new updates";
                  new_items := None;
                  total := None;
                  count := Some (List.length C);
                  file := name |}, scraped)
        else
          match Fs.open_w (files st) path C with
          | Ret fs =>
              (Ret {| status := "updated";
                      message := "New judgments found";
                      new_items :=
                        Some (filter (fun x => x ∉ stored st req) C);
                      total := Some (List.length C);
                      count := None;
                      file := name |},
               {| world := w; files := fs;
                  trace := trace st ++ [EvCall (monitor_call req);
                                        EvWrite path C] |})
          | Raise e => (Raise e, scraped)
          end
    end.
Proof.
  intros H path name scraped. subst path name scraped.
  rewrite stored_stat.
  unfold supreme_monitor, bind, invoke, read_snapshot.
  fold (monitor_call req). rewrite H. cbn.
  fold (snapshot_path (keyword req) (mode req)).
  destruct (Fs.stat (files st) (snapshot_path (keyword req) (mode req)))
    as [old_data| |]; [|done|].
  - destruct (decide (old_data = C)) as [->|Hne]; [done|].
    unfold write_snapshot, ret, log. cbn.
    destruct (Fs.open_w _ _ _); [|done]. cbn. by rewrite <- app_assoc.
  - destruct (decide ([] = C)) as [<-|Hne]; [done|].
    unfold write_snapshot, ret, log. cbn.
    destruct (Fs.open_w _ _ _); [|done]. cbn. by rewrite <- app_assoc.
Qed.

(** The snapshot path is a directory: the read fails. *)
Lemma supreme_monitor_unreadable req st C w :
  adapter (monitor_call req) (world st) = (Ret C, w) ->
  Fs.stat (files st) (snapshot_path (keyword req) (mode req)) = Fs.Dir ->
  supreme_monitor adapter req st
  = (Raise (OSError "Is a directory"),
     {| world := w; files := files st;
        trace := trace st ++ [EvCall (monitor_call req)] |}).
Proof. intros H Hd. rewrite (supreme_monitor_run _ _ _ _ H). by rewrite Hd. Qed.

Lemma supreme_monitor_same req st w :
  adapter (monitor_call req) (world st) = (Ret (stored st req), w) ->
  Fs.stat (files st) (snapshot_path (keyword req) (mode req)) <> Fs.Dir ->
  supreme_monitor adapter req st
  = (Ret {| status := "no_change";
            message := "No new updates";
            new_items := None;
            total := None;
            count := Some (List.length (stored st req));
            file := monitor_filename (PyStr.strip (keyword req)) (mode req) |},
     {| world := w; files := files st;
        trace := trace st ++ [EvCall (monitor_call req)] |}).
Proof.
  intros H Hd. rewrite (supreme_monitor_run _ _ _ _ H).
  rewrite decide_True by done. by destruct (Fs.stat _ _).
Qed.

Lemma supreme_monitor_changed req st C w fs :
  adapter (monitor_call req) (world st) = (Ret C, w) ->
  C <> stored st req ->
  Fs.open_w (files st) (snapshot_path (keyword req) (mode req)) C = Ret fs ->
  Fs.stat (files st) (snapshot_path (keyword req) (mode req)) <> Fs.Dir ->
  supreme_monitor adapter req st
  = (Ret {| status := "updated";
            message := "New judgments found";
            new_items := Some (filter (fun x => x ∉ stored st req) C);
            total := Some (List.length C);
            count := None;
            file := monitor_filename (PyStr.strip (keyword req)) (mode req) |},
     {| world := w; files := fs;
        trace := trace st ++ [EvCall (monitor_call req);
                              EvWrite (snapshot_path (keyword req) (mode req)) C] |}).
Proof.
  intros H Hne Hw Hd. rewrite (supreme_monitor_run _ _ _ _ H).
  rewrite decide_False by congruence. rewrite Hw.
  by destruct (Fs.stat _ _).
Qed.

(** The scrape differs and the snapshot file cannot be opened for
    writing: the poll raises and nothing is written. *)
Lemma supreme_monitor_blocked req st C w e :
  adapter (monitor_call req) (world st) = (Ret C, w) ->
  C <> stored st req ->
  Fs.open_w (files st) (snapshot_path (keyword req) (mode req)) C = Raise e ->
  exists e',
    supreme_monitor adapter req st
    = (Raise e',
       {| world := w; files := files st;
          trace := trace st ++ [EvCall (monitor_call req)] |}).
Proof.
  intros H Hne Hw. rewrite (supreme_monitor_run _ _ _ _ H).
  rewrite decide_False by congruence. rewrite Hw.
  destruct (Fs.stat _ _); eauto.
Qed.

Lemma stat_dir_cannot_write {V} (fs : Fs.t V) p :
  Fs.stat fs p = Fs.Dir -> Fs.can_write fs p = false.
Proof.
  unfold Fs.stat, Fs.can_write, Fs.target.
  destruct (PyStr.truthy p); [|done].
  destruct (Fs.resolve fs p) as [[d c]|]; [|done].
  destruct (Fs.special c); [done|].
  destruct (Fs.entries fs !! (d ++ [c])); [done|].
  rewrite bool_decide_eq_false_2 by (by intros [? ?]).
  by destruct (Fs.is_dir fs (d ++ [c])).
Qed.

Lemma insert_open_w {V} (fs fs' : Fs.t V) p v :
  Fs.open_w fs p v = Ret fs' -> <[p := v]> fs = fs'.
Proof. intros H. unfold insert, Fs.insert. by rewrite H. Qed.

(** The four ways a poll whose scrape returned can end. *)
Lemma supreme_monitor_ends req st C w :
  adapter (monitor_call req) (world st) = (Ret C, w) ->
  let path := snapshot_path (keyword req) (mode req) in
  let r := supreme_monitor adapter req st in
  let scraped :=
    {| world := w; files := files st;
       trace := trace st ++ [EvCall (monitor_call req)] |} in
  (Fs.stat (files st) path = Fs.Dir /\ (exists e, r.1 = Raise e)
   /\ r.2 = scraped)
  \/ (Fs.stat (files st) path <> Fs.Dir /\ C = stored st req
      /\ (exists resp, r.1 = Ret resp /\ status resp = "no_change")
      /\ r.2 = scraped)
  \/ (Fs.stat (files st) path <> Fs.Dir /\ C <> stored st req
      /\ Fs.can_write (files st) path = true
      /\ (exists resp, r.1 = Ret resp /\ status resp = "updated")
      /\ Fs.open_w (files st) path C = Ret (files r.2)
      /\ world r.2 = w
      /\ trace r.2 = trace st ++ [EvCall (monitor_call req); EvWrite path C])
  \/ (Fs.stat (files st) path <> Fs.Dir /\ C <> stored st req
      /\ Fs.can_write (files st) path = false
      /\ (exists e, r.1 = Raise e)
      /\ r.2 = scraped).
Proof.
  intros H path r scraped. subst r.
  assert (Hcase : Fs.stat (files st) path = Fs.Dir
                  \/ Fs.stat (files st) path <> Fs.Dir).
  { destruct (Fs.stat (files st) path); [right|left|right]; done. }
  destruct Hcase as [Hd|Hd].
  { left. rewrite (supreme_monitor_unreadable _ _ _ _ H Hd). eauto. }
  right. destruct (decide (C = stored st req)) as [->|Hne].
  { left. rewrite (supreme_monitor_same _ _ _ H Hd). eauto 6. }
  right. destruct (Fs.open_w (files st) path C) as [fs|e] eqn:Hw.
  - left. rewrite (supreme_monitor_changed _ _ _ _ _ H Hne Hw Hd). cbn.
    repeat split; try done; [|eauto].
    apply (can_write_spec _ _ C). eauto.
  - right. destruct (supreme_monitor_blocked _ _ _ _ _ H Hne Hw) as [e' ->].
    repeat split; try done; [|eauto].
    destruct (Fs.can_write (files st) path) eqn:Hc; [|done].
    apply (can_write_spec _ _ C) in Hc as [fs' Hfs']. congruence.
Qed.

Lemma can_write_fresh {V} (fs : Fs.t V) p L :
  Fs.target fs p = Some L ->
  PyStr.truthy p = true ->
  Fs.stat fs p <> Fs.Dir ->
  Fs.refuses fs p = None ->
  Fs.can_write fs p = true.
Proof.
  unfold Fs.stat, Fs.can_write, Fs.target. intros HL -> Hd Hr. cbn.
  destruct (Fs.resolve fs p) as [[d c]|]; [|done].
  destruct (Fs.special c); [done|]. injection HL as <-.
  destruct (Fs.entries fs !! (d ++ [c])) as [v|].
  - rewrite bool_decide_eq_true_2; [done | by eexists].
  - rewrite Hr. destruct (Fs.is_dir fs (d ++ [c])); [done|].
    by rewrite orb_true_r.
Qed.

Lemma monitor_filename_plain k md :
  PyStr.contains "/" k = false ->
  PyStr.contains "/" md = false ->
  PyStr.contains "/" (monitor_filename k md) = false
  /\ PyStr.endswith_str ".json" (monitor_filename k md) = true.
Proof.
  intros Hk Hmd. unfold monitor_filename. split.
  - rewrite !contains_app, contains_replace, Hk, Hmd by done. done.
  - rewrite <- !append_assoc. apply endswith_str_app.
Qed.

(** The snapshot of a key without a slash is a file of the data
    directory. *)
Lemma snapshot_path_plain k md :
  PyStr.contains "/" (PyStr.strip k) = false ->
  PyStr.contains "/" md = false ->
  snapshot_path k md
  = DATA_DIR +:+ String "/" (monitor_filename (PyStr.strip k) md)
  /\ Fs.valid_name (monitor_filename (PyStr.strip k) md) = true.
Proof.
  intros Hk Hmd.
  destruct (monitor_filename_plain _ _ Hk Hmd) as [Hname Hjson].
  split; [|by apply json_name_valid].
  unfold snapshot_path, path_join.
  assert (PyStr.startswith "/" (monitor_filename (PyStr.strip k) md)
          = false) as ->.
  { destruct (monitor_filename (PyStr.strip k) md) as [|a t]; [done|].
    change (PyStr.contains "/" (String a t))
      with (Ascii.eqb a "/" || PyStr.contains "/" t) in Hname.
    apply orb_false_iff in Hname as [Ha _]. exact Ha. }
  reflexivity.
Qed.

Lemma snapshot_path_truthy k md : PyStr.truthy (snapshot_path k md) = true.
Proof.
  unfold snapshot_path, path_join, monitor_filename.
  destruct (PyStr.startswith "/" _) eqn:E.
  - by destruct (PyStr.replace " " "_" (PyStr.strip k) +:+ _).
  - reflexivity.
Qed.

Lemma stored_file st req :
  stored st req <> [] ->
  files st !! snapshot_path (keyword req) (mode req) = Some (stored st req).
Proof.
  unfold stored.
  by destruct (files st !! snapshot_path (keyword req) (mode req)).
Qed.

Lemma file_not_dir {V} (fs : Fs.t V) p v :
  fs !! p = Some v -> Fs.stat fs p <> Fs.Dir.
Proof. intros H%lookup_File. by rewrite H. Qed.


(** *** Calls in isolation *)

Lemma run_calls_app cs1 cs2 (w : World) :
  run_calls adapter (cs1 ++ cs2) w
  = ((run_calls adapter cs1 w).1
       ++ (run_calls adapter cs2 (run_calls adapter cs1 w).2).1,
     (run_calls adapter cs2 (run_calls adapter cs1 w).2).2).
Proof.
  revert w. induction cs1 as [|c cs1 IH]; intros w; cbn.
  - by destruct (run_calls adapter cs2 w).
  - by rewrite IH.
Qed.

Lemma isolated_from_nil results st :
  isolated_from adapter results [] st = (Ret results, st).
Proof.
  destruct st. unfold isolated_from. cbn. by rewrite !app_nil_r.
Qed.

Lemma bind_isolated results cs1 cs2 (m : M Rec World (list Rec))
    (k : list Rec -> M Rec World (list Rec)) st :
  (forall st', m st' = isolated_from adapter results cs1 st') ->
  (forall r st', k r st' = isolated_from adapter r cs2 st') ->
  bind m k st = isolated_from adapter results (cs1 ++ cs2) st.
Proof.
  intros Hm Hk. unfold bind. rewrite Hm. unfold isolated_from at 1.
  rewrite Hk. unfold isolated_from. cbn.
  rewrite run_calls_app. cbn.
  rewrite fmap_app, concat_app, fmap_app. by rewrite <- !app_assoc.
Qed.

Lemma guarded_invoke results c st :
  guarded results (invoke adapter c) st
  = isolated_from adapter results [c] st.
Proof.
  unfold guarded, try_except, bind, invoke, isolated_from, ret, log. cbn.
  destruct (adapter c (world st)) as [[l|e] w]; cbn.
  - by rewrite app_nil_r.
  - by rewrite app_nil_r.
Qed.

(** A block that normalises one date before its call. *)
Lemma guarded_block1 results (o : outcome string) (f : string -> Call) st :
  guarded results
    (bind (lift o) (fun d => invoke adapter (f d))) st
  = isolated_from adapter results (attempt (outcome_map f o)) st.
Proof.
  destruct o as [d|e]; cbn.
  - apply guarded_invoke.
  - by rewrite isolated_from_nil.
Qed.

(** A block that normalises two dates before its call. *)
Lemma guarded_block2 results (o1 o2 : outcome string)
    (f : string -> string -> Call) st :
  guarded results
    (bind (lift o1) (fun d1 =>
       bind (lift o2) (fun d2 => invoke adapter (f d1 d2)))) st
  = isolated_from adapter results
      (attempt (outcome_bind o1 (fun d1 => outcome_map (f d1) o2))) st.
Proof.
  destruct o1 as [d1|e1]; cbn.
  - apply guarded_block1.
  - by rewrite isolated_from_nil.
Qed.

(** The single-date dispatcher runs its plan with every call isolated. *)
Lemma search_cases_plan request st :
  search_cases adapter request st
  = isolated_from adapter [] (plan_single request) st.
Proof.
  unfold search_cases, plan_single.
  destruct (date_missing (date request)).
  { by rewrite isolated_from_nil. }
  apply bind_isolated.
  { intros st'. destruct (court_in _ _); [apply guarded_invoke|].
    apply eq_sym, isolated_from_nil. }
  intros r1 st1. apply bind_isolated.
  { intros st'. destruct (court_in _ _);
      [apply guarded_block1 | apply eq_sym, isolated_from_nil]. }
  intros r2 st2. apply bind_isolated.
  { intros st'. destruct (court_in _ _);
      [apply guarded_block1 | apply eq_sym, isolated_from_nil]. }
  intros r3 st3.
  rewrite <- (app_nil_r (if String.eqb _ _ then _ else _)).
  apply bind_isolated.
  { intros st'. destruct (String.eqb _ _);
      [apply guarded_block2 | apply eq_sym, isolated_from_nil]. }
  intros r4 st4. apply eq_sym, isolated_from_nil.
Qed.

(** So does the range dispatcher. *)
Lemma search_cases_range_plan request st :
  search_cases_range adapter request st
  = isolated_from adapter [] (plan_range request) st.
Proof.
  unfold search_cases_range, plan_range.
  apply bind_isolated.
  { intros st'. destruct (court_in _ _); [apply guarded_invoke|].
    apply eq_sym, isolated_from_nil. }
  intros r1 st1. apply bind_isolated.
  { intros st'. destruct (court_in _ _);
      [apply guarded_block2 | apply eq_sym, isolated_from_nil]. }
  intros r2 st2. apply bind_isolated.
  { intros st'. destruct (court_in _ _);
      [apply guarded_block2 | apply eq_sym, isolated_from_nil]. }
  intros r3 st3.
  rewrite <- (app_nil_r (if String.eqb _ _ then _ else _)).
  apply bind_isolated.
  { intros st'. destruct (String.eqb _ _);
      [apply guarded_block2 | apply eq_sym, isolated_from_nil]. }
  intros r4 st4. apply eq_sym, isolated_from_nil.
Qed.

Lemma search_cases_events request st :
  events_of (search_cases adapter request) st
  = EvCall <$> plan_single request.
Proof. apply events_of_app. by rewrite search_cases_plan. Qed.

Lemma search_cases_range_events request st :
  events_of (search_cases_range adapter request) st
  = EvCall <$> plan_range request.
Proof. apply events_of_app. by rewrite search_cases_range_plan. Qed.

(** *** The plans, court by court *)

Lemma plan_single_all p d :
  d <> "" ->
  plan_single {| partyName := p; date := Some d; court := "all" |}
  = [search_call supreme_court p d]
    ++ attempt (outcome_map (search_call delhi_high_court p)
                  (convert_date_for_delhi d))
    ++ attempt (outcome_map (search_call bombay_high_court p)
                  (convert_date_for_bombay d)).
Proof.
  intros Hd. destruct d as [|a d]; [done|].
  unfold plan_single.
  cbn -[convert_date_for_delhi convert_date_for_bombay
        convert_date_for_nclat].
  by rewrite app_nil_r.
Qed.

Lemma plan_single_nclat p d :
  d <> "" ->
  plan_single {| partyName := p; date := Some d; court := "nclat" |}
  = attempt (outcome_bind (convert_date_for_nclat d) (fun d1 =>
             outcome_map (range_call nclat p d1)
               (convert_date_for_nclat d))).
Proof. intros Hd. destruct d; [done|]. reflexivity. Qed.

Lemma plan_range_all p s e :
  plan_range {| r_partyName := p; startDate := s; endDate := e;
                r_court := "all" |}
  = [range_call supreme_court p s e]
    ++ attempt (outcome_bind (convert_date_for_delhi s) (fun d1 =>
                outcome_map (range_call delhi_high_court p d1)
                  (convert_date_for_delhi e)))
    ++ attempt (outcome_bind (convert_date_for_bombay s) (fun d1 =>
                outcome_map (range_call bombay_high_court p d1)
                  (convert_date_for_bombay e))).
Proof.
  unfold plan_range.
  cbn -[convert_date_for_delhi convert_date_for_bombay
        convert_date_for_nclat].
  by rewrite app_nil_r.
Qed.

Lemma plan_range_nclat p s e :
  plan_range {| r_partyName := p; startDate := s; endDate := e;
                r_court := "nclat" |}
  = attempt (outcome_bind (convert_date_for_nclat s) (fun d1 =>
             outcome_map (range_call nclat p d1)
               (convert_date_for_nclat e))).
Proof. reflexivity. Qed.

Lemma all_raise_no_contribution cs (w : World) :
  (forall c w0, exists e w1, adapter c w0 = (Raise e, w1)) ->
  List.concat (contribution <$> (run_calls adapter cs w).1) = [].
Proof.
  intros Hdown. revert w. induction cs as [|c cs IH]; intros w; [done|].
  cbn. destruct (Hdown c w) as (e & w1 & ->). cbn. apply IH.
Qed.

(** C2. Both dispatchers run the calls selected by the request one after
    the other, whatever each of them returns: a call that raises adds no
    record and the calls after it are still made.  The response is the
    concatenation of the records of the calls that returned, so a request
    never raises; when every scraper call raises, the response is the
    empty list. *)
Theorem dispatch_failure_isolation :
  (forall request st,
      let r := run_calls adapter (plan_single request) (world st) in
      search_cases adapter request st
      = (Ret (List.concat (contribution <$> r.1)),
         {| world := r.2; files := files st;
            trace := trace st ++ (EvCall <$> plan_single request) |}))
  /\ (forall request st,
      let r := run_calls adapter (plan_range request) (world st) in
      search_cases_range adapter request st
      = (Ret (List.concat (contribution <$> r.1)),
         {| world := r.2; files := files st;
            trace := trace st ++ (EvCall <$> plan_range request) |}))
  /\ (forall p d dd bd st,
        d <> "" ->
        convert_date_for_delhi d = Ret dd ->
        convert_date_for_bombay d = Ret bd ->
        let r1 := adapter (search_call supreme_court p d) (world st) in
        let r2 := adapter (search_call delhi_high_court p dd) r1.2 in
        let r3 := adapter (search_call bombay_high_court p bd) r2.2 in
        search_cases adapter
          {| partyName := p; date := Some d; court := "all" |} st
        = (Ret (contribution r1.1 ++ contribution r2.1
                ++ contribution r3.1),
           {| world := r3.2; files := files st;
              trace := trace st
                       ++ [EvCall (search_call supreme_court p d);
                           EvCall (search_call delhi_high_court p dd);
                           EvCall (search_call bombay_high_court p bd)] |}))
  /\ ((forall c w, exists e w', adapter c w = (Raise e, w')) ->
      forall p d1 d2 st,
        (search_cases adapter
           {| partyName := p; date := Some d1; court := "all" |} st).1
        = Ret []
        /\ (search_cases_range adapter
              {| r_partyName := p; startDate := d1; endDate := d2;
                 r_court := "all" |} st).1
           = Ret []).
Proof.
  split; [|split; [|split]].
  - intros request st r. by rewrite search_cases_plan.
  - intros request st r. by rewrite search_cases_range_plan.
  - intros p d dd bd st Hd Hdd Hbd r1 r2 r3.
    rewrite search_cases_plan, plan_single_all by done.
    rewrite Hdd, Hbd. unfold isolated_from. cbn.
    by rewrite app_nil_r.
  - intros Hdown p d1 d2 st. split.
    + rewrite search_cases_plan. unfold isolated_from. cbn [fst].
      by rewrite all_raise_no_contribution.
    + rewrite search_cases_range_plan. unfold isolated_from. cbn [fst].
      by rewrite all_raise_no_contribution.
Qed.

Lemma plan_single_one b name p d :
  d <> "" ->
  (b, name) ∈ [(supreme_court, "supreme"); (delhi_high_court, "delhi");
               (bombay_high_court, "bombay")] ->
  plan_single {| partyName := p; date := Some d; court := name |}
  = [search_call b p d].
Proof.
  intros Hd Hb. destruct d as [|a d]; [done|].
  repeat (apply elem_of_cons in Hb as [[= -> ->]|Hb]; [reflexivity|]).
  by apply elem_of_nil in Hb.
Qed.

Lemma plan_range_one b name p s e :
  (b, name) ∈ [(supreme_court, "supreme"); (delhi_high_court, "delhi");
               (bombay_high_court, "bombay")] ->
  plan_range {| r_partyName := p; startDate := s; endDate := e;
                r_court := name |}
  = [range_call b p s e].
Proof.
  intros Hb.
  repeat (apply elem_of_cons in Hb as [[= -> ->]|Hb]; [reflexivity|]).
  by apply elem_of_nil in Hb.
Qed.

(** C3 (as the code has it). With court "all" the top-court scraper
    receives the caller's dates as given and each high-court scraper
    receives them converted to its own format; with court "supreme",
    "delhi" or "bombay" the dates are passed on as given; with court
    "nclat" the dates are passed through the tribunal normaliser. *)
Theorem dispatch_dates p st :
  (forall d, d <> "" ->
     (forall dd bd,
         convert_date_for_delhi d = Ret dd ->
         convert_date_for_bombay d = Ret bd ->
         events_of (search_cases adapter
                      {| partyName := p; date := Some d; court := "all" |}) st
         = [EvCall (search_call supreme_court p d);
            EvCall (search_call delhi_high_court p dd);
            EvCall (search_call bombay_high_court p bd)])
     /\ (forall b name,
           (b, name) ∈ [(supreme_court, "supreme");
                        (delhi_high_court, "delhi");
                        (bombay_high_court, "bombay")] ->
           events_of (search_cases adapter
                        {| partyName := p; date := Some d; court := name |}) st
           = [EvCall (search_call b p d)])
     /\ (forall nd,
           convert_date_for_nclat d = Ret nd ->
           events_of (search_cases adapter
                        {| partyName := p; date := Some d; court := "nclat" |}) st
           = [EvCall (range_call nclat p nd nd)]))
  /\ (forall s e,
     (forall ds de bs be,
         convert_date_for_delhi s = Ret ds ->
         convert_date_for_delhi e = Ret de ->
         convert_date_for_bombay s = Ret bs ->
         convert_date_for_bombay e = Ret be ->
         events_of (search_cases_range adapter
                      {| r_partyName := p; startDate := s; endDate := e;
                         r_court := "all" |}) st
         = [EvCall (range_call supreme_court p s e);
            EvCall (range_call delhi_high_court p ds de);
            EvCall (range_call bombay_high_court p bs be)])
     /\ (forall b name,
           (b, name) ∈ [(supreme_court, "supreme");
                        (delhi_high_court, "delhi");
                        (bombay_high_court, "bombay")] ->
           events_of (search_cases_range adapter
                        {| r_partyName := p; startDate := s; endDate := e;
                           r_court := name |}) st
           = [EvCall (range_call b p s e)])
     /\ (forall ns ne,
           convert_date_for_nclat s = Ret ns ->
           convert_date_for_nclat e = Ret ne ->
           events_of (search_cases_range adapter
                        {| r_partyName := p; startDate := s; endDate := e;
                           r_court := "nclat" |}) st
           = [EvCall (range_call nclat p ns ne)])).
Proof.
  split.
  - intros d Hd. split; [|split].
    + intros dd bd Hdd Hbd.
      rewrite search_cases_events, plan_single_all by done.
      by rewrite Hdd, Hbd.
    + intros b name Hb.
      by rewrite search_cases_events, (plan_single_one b).
    + intros nd Hnd.
      rewrite search_cases_events, plan_single_nclat by done.
      by rewrite Hnd.
  - intros s e. split; [|split].
    + intros ds de bs be Hds Hde Hbs Hbe.
      rewrite search_cases_range_events, plan_range_all.
      by rewrite Hds, Hde, Hbs, Hbe.
    + intros b name Hb.
      by rewrite search_cases_range_events, (plan_range_one b).
    + intros ns ne Hns Hne.
      rewrite search_cases_range_events, plan_range_nclat.
      by rewrite Hns, Hne.
Qed.

Lemma court_in_spec c l : court_in c l = true <-> c ∈ l.
Proof.
  unfold court_in. rewrite existsb_exists. split.
  - intros (x & Hx & ->%String.eqb_eq). by apply list_elem_of_In.
  - intros Hc. exists c. split; [by apply list_elem_of_In|].
    apply String.eqb_refl.
Qed.

Lemma attempt_map_elem {A} (f : A -> Call) (o : outcome A) c :
  c ∈ attempt (outcome_map f o) -> exists a, o = Ret a /\ c = f a.
Proof.
  destruct o as [a|e]; cbn.
  - intros ->%list_elem_of_singleton. eauto.
  - by intros ?%elem_of_nil.
Qed.

Lemma attempt_bind_map_elem (o1 o2 : outcome string)
    (f : string -> string -> Call) c :
  c ∈ attempt (outcome_bind o1 (fun d1 => outcome_map (f d1) o2)) ->
  exists d1 d2, o1 = Ret d1 /\ o2 = Ret d2 /\ c = f d1 d2.
Proof.
  destruct o1 as [d1|e]; cbn.
  - intros (d2 & -> & ->)%attempt_map_elem. eauto.
  - by intros ?%elem_of_nil.
Qed.

(** What a call of the single-date plan looks like. *)
Lemma plan_single_calls request c :
  c ∈ plan_single request ->
  (court request <> "nclat" /\ entry c = ep_search /\ target c <> nclat)
  \/ (court request = "nclat" /\ target c = nclat
      /\ entry c = ep_search_range
      /\ exists d nd,
           date request = Some d
           /\ convert_date_for_nclat d = Ret nd
           /\ args c = [PStr (partyName request); PStr nd; PStr nd]).
Proof.
  unfold plan_single. destruct request as [p od ct]; cbn [date court partyName].
  destruct (date_missing od) eqn:Hmiss; [by intros ?%elem_of_nil|].
  destruct od as [d|]; [|done]. cbn [default].
  assert (Hhigh : forall l, court_in ct l = true ->
                            court_in "nclat" l = false -> ct <> "nclat").
  { intros l Hin Hno ->. congruence. }
  rewrite !elem_of_app. intros [H|[H|[H|H]]].
  - destruct (court_in ct ["supreme"; "all"]) eqn:Hc;
      [|by apply elem_of_nil in H].
    apply list_elem_of_singleton in H as ->. left.
    split; [|done]. by eapply Hhigh.
  - destruct (court_in ct ["delhi"; "all"]) eqn:Hc;
      [|by apply elem_of_nil in H].
    apply attempt_map_elem in H as (dd & _ & ->). left.
    split; [|done]. by eapply Hhigh.
  - destruct (court_in ct ["bombay"; "all"]) eqn:Hc;
      [|by apply elem_of_nil in H].
    apply attempt_map_elem in H as (dd & _ & ->). left.
    split; [|done]. by eapply Hhigh.
  - destruct (String.eqb ct "nclat") eqn:Hc;
      [|by apply elem_of_nil in H].
    apply String.eqb_eq in Hc as ->.
    apply attempt_bind_map_elem in H as (d1 & d2 & H1 & H2 & ->).
    right. repeat split. exists d, d1. repeat split; [done|].
    cbn. congruence.
Qed.

(** C4 (as the code has it). A single-date request whose court is not
    "nclat" reaches only single-date [search] entry points: that of the
    one scraper the court names, or, with court "all", that of the top
    court followed by those of the two high courts (when the date can be
    converted for them).  A single-date request for "nclat" is sent to
    the tribunal's [search_range] entry point, and to nothing else, with
    the normalised date as both start and end.  A request without a date
    calls nothing. *)
Theorem single_date_entry_points request st :
  let evs := events_of (search_cases adapter request) st in
  (forall c,
      EvCall c ∈ evs ->
      (court request <> "nclat" -> entry c = ep_search /\ target c <> nclat)
      /\ (court request = "nclat" ->
          target c = nclat /\ entry c = ep_search_range
          /\ exists d nd,
               date request = Some d
               /\ convert_date_for_nclat d = Ret nd
               /\ args c = [PStr (partyName request); PStr nd; PStr nd]))
  /\ (date_missing (date request) = true -> evs = [])
  /\ (forall d nd,
        date request = Some d -> d <> "" ->
        court request = "nclat" ->
        convert_date_for_nclat d = Ret nd ->
        evs = [EvCall (range_call nclat (partyName request) nd nd)])
  /\ (forall d b name,
        date request = Some d -> d <> "" ->
        (b, name) ∈ [(supreme_court, "supreme");
                     (delhi_high_court, "delhi");
                     (bombay_high_court, "bombay")] ->
        court request = name ->
        evs = [EvCall (search_call b (partyName request) d)])
  /\ (forall d,
        date request = Some d -> d <> "" ->
        court request = "all" ->
        evs = EvCall <$>
                ([search_call supreme_court (partyName request) d]
                 ++ attempt (outcome_map
                               (search_call delhi_high_court
                                  (partyName request))
                               (convert_date_for_delhi d))
                 ++ attempt (outcome_map
                               (search_call bombay_high_court
                                  (partyName request))
                               (convert_date_for_bombay d)))).
Proof.
  intros evs. subst evs. rewrite search_cases_events.
  split; [|split; [|split; [|split]]].
  - intros c (c' & [= <-] & Hc)%list_elem_of_fmap.
    apply plan_single_calls in Hc as [(Hn & He & Ht)|(Hn & Ht & He & Hd)].
    + split; [done|]. intros; done.
    + split; [intros; done|]. done.
  - intros Hmiss. unfold plan_single. by rewrite Hmiss.
  - destruct request as [p od ct]. cbn [date court partyName].
    intros d nd -> Hd -> Hnd. rewrite plan_single_nclat by done.
    by rewrite Hnd.
  - destruct request as [p od ct]. cbn [date court partyName].
    intros d b name -> Hd Hb ->. by rewrite (plan_single_one b).
  - destruct request as [p od ct]. cbn [date court partyName].
    intros d -> Hd ->. by rewrite plan_single_all.
Qed.

Lemma bombay_fails_with_delhi d e :
  convert_date_for_delhi d = Raise e -> convert_date_for_bombay d = Raise e.
Proof.
  unfold convert_date_for_delhi, convert_date_for_bombay.
  by destruct (PyDate.strptime d PyDate.iso_format).
Qed.

Lemma never_raises_single request st :
  exists l, (search_cases adapter request st).1 = Ret l.
Proof. rewrite search_cases_plan. unfold isolated_from. cbn. eauto. Qed.

Lemma never_raises_range request st :
  exists l, (search_cases_range adapter request st).1 = Ret l.
Proof. rewrite search_cases_range_plan. unfold isolated_from. cbn. eauto. Qed.


Lemma court_not_in c (l l' : list string) :
  c ∉ l' -> (forall x, x ∈ l -> x ∈ l') -> court_in c l = false.
Proof.
  intros Hc Hl. destruct (court_in c l) eqn:E; [|done].
  apply court_in_spec in E. by apply Hl in E.
Qed.

Ltac listed :=
  repeat first [apply list_elem_of_here | apply list_elem_of_further].

Ltac sublisted :=
  let x := fresh "x" in
  let Hx := fresh "Hx" in
  intros x Hx;
  repeat (apply elem_of_cons in Hx as [->|Hx]; [listed|]);
  by apply elem_of_nil in Hx.

Lemma plan_single_unknown request :
  court request ∉ ["supreme"; "delhi"; "bombay"; "nclat"; "all"] ->
  plan_single request = [].
Proof.
  intros H. unfold plan_single.
  destruct (date_missing (date request)); [done|].
  rewrite !(court_not_in _ _ _ H) by sublisted.
  destruct (String.eqb_spec (court request) "nclat") as [E|_]; [|done].
  exfalso. apply H. rewrite E. listed.
Qed.

Lemma plan_range_unknown request :
  r_court request ∉ ["supreme"; "delhi"; "bombay"; "nclat"; "all"] ->
  plan_range request = [].
Proof.
  intros H. unfold plan_range.
  rewrite !(court_not_in _ _ _ H) by sublisted.
  destruct (String.eqb_spec (r_court request) "nclat") as [E|_]; [|done].
  exfalso. apply H. rewrite E. listed.
Qed.

(** C10. A single-date request (with or without a date) or a range
    request whose court is none of "supreme", "delhi", "bombay", "nclat"
    and "all" returns the empty list and calls no scraper: the state,
    trace included, is unchanged. *)
Theorem unknown_court_no_dispatch :
  (forall request st,
      court request ∉ ["supreme"; "delhi"; "bombay"; "nclat"; "all"] ->
      search_cases adapter request st = (Ret [], st)
      /\ events_of (search_cases adapter request) st = [])
  /\ (forall request st,
      r_court request ∉ ["supreme"; "delhi"; "bombay"; "nclat"; "all"] ->
      search_cases_range adapter request st = (Ret [], st)
      /\ events_of (search_cases_range adapter request) st = []).
Proof.
  split; intros request st H.
  - rewrite search_cases_events, search_cases_plan.
    rewrite plan_single_unknown by done.
    split; [apply isolated_from_nil | done].
  - rewrite search_cases_range_events, search_cases_range_plan.
    rewrite plan_range_unknown by done.
    split; [apply isolated_from_nil | done].
Qed.

(** *** Failure of the scraper behind an endpoint *)

Lemma cerc_search_never_raises req st :
  exists resp, (cerc_search adapter req st).1 = Ret resp.
Proof.
  unfold cerc_search, try_except, bind, invoke, ret.
  destruct (adapter _ (world st)) as [[l|e] w]; cbn; eauto.
Qed.

(** C5 (as the code has it). When its scraper raises, the
    regulatory-commission search answers with empty results and count 0,
    and the regional status monitor answers with the empty list; neither
    ever raises.  The top-court monitor has no handler: the scraper's
    exception reaches the caller, and the snapshot store is left as it
    was. *)
Theorem backend_failure_shapes :
  (forall req st, exists resp, (cerc_search adapter req st).1 = Ret resp)
  /\ (forall req st e w,
        adapter {| target := cerc; entry := ep_search;
                   args := [PStr (month req); PStr (party req)] |}
                (world st) = (Raise e, w) ->
        (cerc_search adapter req st).1
        = Ret {| results := []; c_count := 0 |})
  /\ (forall req st e w,
        adapter {| target := delhi_high_court; entry := ep_monitor;
                   args := [PStr (PyStr.strip (keyword req));
                            of_optional (m_year req); PStr (mode req);
                            PBool true] |}
                (world st) = (Raise e, w) ->
        (delhi_monitor adapter req st).1 = Ret [])
  /\ (forall req st e w,
        adapter (monitor_call req) (world st) = (Raise e, w) ->
        (supreme_monitor adapter req st).1 = Raise e
        /\ files (supreme_monitor adapter req st).2 = files st).
Proof.
  split; [exact cerc_search_never_raises|]. split; [|split].
  - intros req st e w H.
    unfold cerc_search, try_except, bind, invoke. by rewrite H.
  - intros req st e w H.
    unfold delhi_monitor, try_except, invoke. by rewrite H.
  - intros req st e w H.
    by rewrite (supreme_monitor_raise _ _ _ _ H).
Qed.

(** *** The life of a snapshot *)

(** What a poll does to the store and to the trace. *)
Lemma supreme_monitor_effect req st :
  let path := snapshot_path (keyword req) (mode req) in
  let r := supreme_monitor adapter req st in
  (files r.2 = files st
   /\ events_of (supreme_monitor adapter req) st
      = [EvCall (monitor_call req)])
  \/ (exists C w resp,
        adapter (monitor_call req) (world st) = (Ret C, w)
        /\ C <> stored st req
        /\ Fs.can_write (files st) path = true
        /\ r.1 = Ret resp
        /\ Fs.open_w (files st) path C = Ret (files r.2)
        /\ events_of (supreme_monitor adapter req) st
           = [EvCall (monitor_call req); EvWrite path C]).
Proof.
  intros path r. subst r.
  destruct (adapter (monitor_call req) (world st)) as [[C|e] w] eqn:H.
  2:{ left. rewrite (supreme_monitor_raise _ _ _ _ H). split; [done|].
      apply events_of_app. by rewrite (supreme_monitor_raise _ _ _ _ H). }
  destruct (supreme_monitor_ends _ _ _ _ H)
    as [(_ & _ & Hr)|[(_ & _ & _ & Hr)|[Hupd|(_ & _ & _ & _ & Hr)]]].
  1,2,4: left; split; [by rewrite Hr | apply events_of_app; by rewrite Hr].
  right. destruct Hupd as (_ & Hne & Hc & (resp & Hresp & _) & Hw & _ & Ht).
  exists C, w, resp. repeat split; try done. by apply events_of_app.
Qed.

Lemma supreme_monitor_extends req st :
  Fs.extends (files st) (files (supreme_monitor adapter req st).2).
Proof.
  destruct (supreme_monitor_effect req st)
    as [[-> _]|(C & w & resp & _ & _ & _ & _ & Hw & _)].
  - apply extends_refl.
  - by eapply open_w_extends.
Qed.

Lemma supreme_monitor_writes req st C w :
  adapter (monitor_call req) (world st) = (Ret C, w) ->
  forall ev,
    ev ∈ events_of (supreme_monitor adapter req) st ->
    is_write ev = true ->
    ev = EvWrite (snapshot_path (keyword req) (mode req)) C
    /\ C <> stored st req
    /\ Fs.can_write (files st) (snapshot_path (keyword req) (mode req))
       = true.
Proof.
  intros H ev.
  destruct (supreme_monitor_effect req st)
    as [[_ ->]|(C' & w' & resp & H' & Hne & Hc & _ & _ & ->)].
  - by intros ->%list_elem_of_singleton.
  - assert (C' = C) as -> by congruence.
    intros [->|[->|[]%elem_of_nil]%elem_of_cons]%elem_of_cons; done.
Qed.


(** *** The snapshot key *)

Lemma snapshot_path_stripped k1 k2 md :
  space_underscore_equal (PyStr.strip k1) (PyStr.strip k2) ->
  snapshot_path k1 md = snapshot_path k2 md.
Proof.
  unfold space_underscore_equal, snapshot_path, monitor_filename.
  by intros ->.
Qed.

Lemma supreme_monitor_after req st C w resp :
  adapter (monitor_call req) (world st) = (Ret C, w) ->
  (supreme_monitor adapter req st).1 = Ret resp ->
  stored (supreme_monitor adapter req st).2 req = C
  /\ world (supreme_monitor adapter req st).2 = w
  /\ Fs.stat (files (supreme_monitor adapter req st).2)
             (snapshot_path (keyword req) (mode req)) <> Fs.Dir.
Proof.
  intros H Hresp.
  destruct (supreme_monitor_ends _ _ _ _ H)
    as [(_ & [e He] & _)|[(Hd & -> & _ & Hr)
                         |[Hupd|(_ & _ & _ & [e He] & _)]]];
    try congruence.
  - by rewrite Hr.
  - destruct Hupd as (_ & _ & _ & _ & Hw & Hworld & _).
    apply (lookup_open_w (files st)) in Hw.
    split; [|split; [done|]].
    + unfold stored. by rewrite Hw.
    + by eapply file_not_dir.
Qed.

(** The response of a poll depends on the file system through its
    snapshot path only. *)
Lemma supreme_monitor_reads req st st' :
  let path := snapshot_path (keyword req) (mode req) in
  world st' = world st ->
  Fs.stat (files st') path = Fs.stat (files st) path ->
  (forall C, is_ret (Fs.open_w (files st') path C)
             = is_ret (Fs.open_w (files st) path C)) ->
  is_ret (supreme_monitor adapter req st').1
  = is_ret (supreme_monitor adapter req st).1
  /\ forall resp,
       (supreme_monitor adapter req st).1 = Ret resp ->
       (supreme_monitor adapter req st').1 = Ret resp.
Proof.
  intros path Hw Hs Ho.
  assert (Hst : stored st' req = stored st req).
  { rewrite !stored_stat. fold path. by rewrite Hs. }
  destruct (adapter (monitor_call req) (world st)) as [[C|e] w] eqn:H.
  2:{ rewrite (supreme_monitor_raise _ _ _ _ H). rewrite <- Hw in H.
      by rewrite (supreme_monitor_raise _ _ _ _ H). }
  rewrite (supreme_monitor_run _ _ _ _ H). rewrite <- Hw in H.
  rewrite (supreme_monitor_run _ _ _ _ H). fold path.
  rewrite Hs, Hst. specialize (Ho C).
  destruct (Fs.stat (files st) path); [|done|];
    (destruct (decide (stored st req = C)); [done|]);
    by destruct (Fs.open_w (files st') path C),
                (Fs.open_w (files st) path C).
Qed.

(** C9 (as the code has it). The snapshot file of a poll is named by the
    stripped keyword with every space replaced by an underscore, followed
    by an underscore, the mode and ".json"; a poll reads the file system
    through that path only and writes no file but the one the path
    names.  Hence two keywords that differ
    only in surrounding white space, or whose stripped forms differ only
    in spaces versus underscores, share one snapshot file: each finds the
    snapshot of the other, and what a poll for one stores is what the
    next poll for the other finds. *)
Theorem snapshot_key :
  (forall req st,
      let path := snapshot_path (keyword req) (mode req) in
      path = path_join DATA_DIR
               (PyStr.replace " " "_" (PyStr.strip (keyword req))
                +:+ "_" +:+ mode req +:+ ".json")
      /\ (forall resp, (supreme_monitor adapter req st).1 = Ret resp ->
            file resp = PyStr.replace " " "_" (PyStr.strip (keyword req))
                        +:+ "_" +:+ mode req +:+ ".json")
      /\ (forall p data,
            EvWrite p data ∈ events_of (supreme_monitor adapter req) st ->
            p = path)
      /\ (files (supreme_monitor adapter req st).2 = files st
          \/ exists C L,
               Fs.target (files st) path = Some L
               /\ files (supreme_monitor adapter req st).2
                  = Fs.put L C (files st))
      /\ (forall st',
            world st' = world st ->
            Fs.stat (files st') path = Fs.stat (files st) path ->
            (forall C, is_ret (Fs.open_w (files st') path C)
                       = is_ret (Fs.open_w (files st) path C)) ->
            forall resp,
              (supreme_monitor adapter req st).1 = Ret resp ->
              (supreme_monitor adapter req st').1 = Ret resp))
  /\ (forall l k r md,
        PyStr.all_space l -> PyStr.all_space r ->
        snapshot_path (l +:+ k +:+ r) md = snapshot_path k md)
  /\ (forall k1 k2 md,
        space_underscore_equal (PyStr.strip k1) (PyStr.strip k2) ->
        snapshot_path k1 md = snapshot_path k2 md)
  /\ (forall k1 k2 md y1 y2 st,
        space_underscore_equal (PyStr.strip k1) (PyStr.strip k2) ->
        let req1 := {| keyword := k1; mode := md; m_year := y1 |} in
        let req2 := {| keyword := k2; mode := md; m_year := y2 |} in
        stored st req1 = stored st req2
        /\ forall C w resp,
             adapter (monitor_call req1) (world st) = (Ret C, w) ->
             (supreme_monitor adapter req1 st).1 = Ret resp ->
             stored (supreme_monitor adapter req1 st).2 req2 = C).
Proof.
  split; [|split; [|split]].
  - intros req st path. split; [reflexivity|]. split; [|split; [|split]].
    + intros resp.
      destruct (adapter (monitor_call req) (world st)) as [[C|e] w] eqn:H.
      2:{ by rewrite (supreme_monitor_raise _ _ _ _ H). }
      rewrite (supreme_monitor_run _ _ _ _ H).
      destruct (Fs.stat _ _); [|done|];
        (destruct (decide _); [by intros [= <-]|]);
        (destruct (Fs.open_w _ _ _); [by intros [= <-] | done]).
    + intros p data Hev.
      destruct (supreme_monitor_effect req st)
        as [[_ Hevs]|(C & w & resp & _ & _ & _ & _ & _ & Hevs)];
        rewrite Hevs in Hev.
      * by apply list_elem_of_singleton in Hev.
      * apply elem_of_cons in Hev as [Hev|Hev]; [done|].
        apply list_elem_of_singleton in Hev. by injection Hev as -> _.
    + destruct (supreme_monitor_effect req st)
        as [[Hf _]|(C & w & resp & _ & _ & _ & _ & Hw & _)]; [by left|].
      right. apply open_w_ret in Hw as (L & HL & Hput & _). eauto.
    + intros st' Hw Hs Ho.
      by destruct (supreme_monitor_reads req st st' Hw Hs Ho).
  - intros l k r md Hl Hr. apply snapshot_path_stripped.
    unfold space_underscore_equal. by rewrite strip_surrounded.
  - intros k1 k2 md. apply snapshot_path_stripped.
  - intros k1 k2 md y1 y2 st Heq req1 req2.
    assert (Hpath : snapshot_path k1 md = snapshot_path k2 md)
      by by apply snapshot_path_stripped.
    split.
    + subst req1 req2. unfold stored. cbn [keyword mode]. by rewrite Hpath.
    + intros C w resp H Hresp.
      destruct (supreme_monitor_after _ _ _ _ _ H Hresp) as (Hst & _).
      subst req1 req2. unfold stored in *. cbn [keyword mode] in *.
      by rewrite <- Hpath.
Qed.

(** ** Further properties of the dispatchers *)

Lemma called_calls (cs : list Call) :
  called (Rec := Rec) (EvCall <$> cs) = target <$> cs.
Proof.
  induction cs as [|c cs IH]; [done|]. exact (f_equal (cons (target c)) IH).
Qed.

Lemma attempt_targets b (o : outcome Call) :
  (forall c, o = Ret c -> target c = b) ->
  target <$> attempt o `sublist_of` [b].
Proof.
  intros H. destruct o as [c|e]; cbn.
  - by rewrite (H c eq_refl).
  - apply sublist_nil_l.
Qed.

Lemma outcome_map_target {A} (f : A -> Call) b (o : outcome A) c :
  (forall a, target (f a) = b) -> outcome_map f o = Ret c -> target c = b.
Proof. intros Hf. destruct o; [|done]. by intros [= <-]. Qed.

Lemma outcome_bind_map_target (f : string -> string -> Call) b
    (o1 o2 : outcome string) c :
  (forall d1 d2, target (f d1 d2) = b) ->
  outcome_bind o1 (fun d1 => outcome_map (f d1) o2) = Ret c -> target c = b.
Proof.
  intros Hf. destruct o1 as [d1|]; [|done]. cbn.
  by apply outcome_map_target.
Qed.

Lemma plan_single_targets request :
  target <$> plan_single request
  `sublist_of` (if String.eqb (court request) "nclat" then [nclat]
                else [supreme_court; delhi_high_court; bombay_high_court]).
Proof.
  unfold plan_single.
  destruct (date_missing (date request)); [apply sublist_nil_l|].
  rewrite !fmap_app.
  destruct (String.eqb_spec (court request) "nclat") as [->|Hne].
  - cbn [court_in existsb String.eqb Ascii.eqb Bool.eqb andb orb fmap
         list_fmap app].
    apply attempt_targets. intros c.
    by apply outcome_bind_map_target.
  - rewrite fmap_nil, app_nil_r.
    apply (sublist_app _ [supreme_court]
             _ [delhi_high_court; bombay_high_court]).
    { destruct (court_in _ _); [done | apply sublist_nil_l]. }
    apply (sublist_app _ [delhi_high_court] _ [bombay_high_court]).
    { destruct (court_in _ _); [|apply sublist_nil_l].
      apply attempt_targets. intros c. by apply outcome_map_target. }
    destruct (court_in _ _); [|apply sublist_nil_l].
    apply attempt_targets. intros c. by apply outcome_map_target.
Qed.

Lemma plan_range_targets request :
  target <$> plan_range request
  `sublist_of` (if String.eqb (r_court request) "nclat" then [nclat]
                else [supreme_court; delhi_high_court; bombay_high_court]).
Proof.
  unfold plan_range. rewrite !fmap_app.
  destruct (String.eqb_spec (r_court request) "nclat") as [->|Hne].
  - cbn [court_in existsb String.eqb Ascii.eqb Bool.eqb andb orb fmap
         list_fmap app].
    apply attempt_targets. intros c.
    by apply outcome_bind_map_target.
  - rewrite fmap_nil, app_nil_r.
    apply (sublist_app _ [supreme_court]
             _ [delhi_high_court; bombay_high_court]).
    { destruct (court_in _ _); [done | apply sublist_nil_l]. }
    apply (sublist_app _ [delhi_high_court] _ [bombay_high_court]).
    { destruct (court_in _ _); [|apply sublist_nil_l].
      apply attempt_targets. intros c. by apply outcome_bind_map_target. }
    destruct (court_in _ _); [|apply sublist_nil_l].
    apply attempt_targets. intros c. by apply outcome_bind_map_target.
Qed.

(** X5. Which scrapers a search reaches.  The scrapers called by either
    dispatcher form a sublist of supreme, delhi, bombay (each at most
    once, in that order, at most three) unless the court is "nclat", when
    at most the tribunal is called: so court "all" never reaches the
    tribunal, and no search ever reaches the commission scraper. *)
Theorem dispatch_targets :
  (forall request st,
      called (events_of (search_cases adapter request) st)
      `sublist_of` (if String.eqb (court request) "nclat" then [nclat]
                    else [supreme_court; delhi_high_court;
                          bombay_high_court]))
  /\ (forall request st,
      called (events_of (search_cases_range adapter request) st)
      `sublist_of` (if String.eqb (r_court request) "nclat" then [nclat]
                    else [supreme_court; delhi_high_court;
                          bombay_high_court])).
Proof.
  split; intros request st.
  - rewrite search_cases_events, called_calls. apply plan_single_targets.
  - rewrite search_cases_range_events, called_calls.
    apply plan_range_targets.
Qed.

(** X6. Neither dispatcher reads or writes the snapshot store: the files
    are as before, no event is a write, and the response does not depend
    on the files. *)
Theorem dispatch_leaves_store :
  (forall request st,
      files (search_cases adapter request st).2 = files st
      /\ (forall ev, ev ∈ events_of (search_cases adapter request) st ->
                     is_write ev = false)
      /\ (forall st', world st' = world st ->
            (search_cases adapter request st').1
            = (search_cases adapter request st).1))
  /\ (forall request st,
      files (search_cases_range adapter request st).2 = files st
      /\ (forall ev, ev ∈ events_of (search_cases_range adapter request) st ->
                     is_write ev = false)
      /\ (forall st', world st' = world st ->
            (search_cases_range adapter request st').1
            = (search_cases_range adapter request st).1)).
Proof.
  split; intros request st.
  - split; [by rewrite search_cases_plan|]. split.
    + rewrite search_cases_events.
      by intros ev (c & -> & _)%list_elem_of_fmap.
    + intros st' Hw. rewrite !search_cases_plan. unfold isolated_from.
      cbn [fst]. by rewrite Hw.
  - split; [by rewrite search_cases_range_plan|]. split.
    + rewrite search_cases_range_events.
      by intros ev (c & -> & _)%list_elem_of_fmap.
    + intros st' Hw. rewrite !search_cases_range_plan. unfold isolated_from.
      cbn [fst]. by rewrite Hw.
Qed.

(** X7. A single-date tribunal search is the tribunal range search whose
    start and end are that date: same response, same calls, same state. *)
Theorem nclat_single_is_range p d st :
  d <> "" ->
  search_cases adapter
    {| partyName := p; date := Some d; court := "nclat" |} st
  = search_cases_range adapter
      {| r_partyName := p; startDate := d; endDate := d;
         r_court := "nclat" |} st.
Proof.
  intros Hd. rewrite search_cases_plan, search_cases_range_plan.
  by rewrite plan_single_nclat, plan_range_nclat.
Qed.

Lemma attempt_nil_iff (o : outcome Call) : attempt o = [] <-> is_ret o = false.
Proof. by destruct o. Qed.

(** X8. When a single-date search calls no scraper at all: exactly when
    the date is missing or empty, or the court is none of the five
    selectors, or the court is "nclat" and the tribunal helper rejects
    the date. *)
Theorem single_search_silent request st :
  events_of (search_cases adapter request) st = []
  <-> date_missing (date request) = true
      \/ court request ∉ ["supreme"; "delhi"; "bombay"; "nclat"; "all"]
      \/ (court request = "nclat"
          /\ is_ret (convert_date_for_nclat (default "" (date request)))
             = false).
Proof.
  rewrite search_cases_events. split.
  - intros H. apply fmap_nil_inv in H.
    destruct (date_missing (date request)) eqn:Hmiss; [by left|]. right.
    destruct (decide (court request
                        ∈ ["supreme"; "delhi"; "bombay"; "nclat"; "all"]))
      as [Hin|Hout]; [|by left]. right.
    unfold plan_single in H. rewrite Hmiss in H.
    destruct request as [p od ct]. cbn [date court partyName] in *.
    repeat (apply elem_of_cons in Hin as [->|Hin];
            [cbn -[convert_date_for_delhi convert_date_for_bombay
                   convert_date_for_nclat] in H;
             try discriminate H|]).
    + split; [done|].
      by destruct (convert_date_for_nclat (default "" od)).
    + by apply elem_of_nil in Hin.
  - intros [Hmiss|[Hout|[Hc Hbad]]].
    + unfold plan_single. by rewrite Hmiss.
    + by rewrite plan_single_unknown.
    + unfold plan_single. destruct (date_missing (date request)); [done|].
      rewrite Hc. cbn -[convert_date_for_nclat].
      by destruct (convert_date_for_nclat (default "" (date request))).
Qed.

(** ** Further properties of the monitors *)

(** X9. After a poll that returned, the snapshot found by the next poll
    of the same request is the scrape in full, whether or not the poll
    wrote; after a poll that raised, in the scrape or at the snapshot
    file, it is what it was. *)
Theorem snapshot_is_latest_scrape req st :
  (forall C w resp,
      adapter (monitor_call req) (world st) = (Ret C, w) ->
      (supreme_monitor adapter req st).1 = Ret resp ->
      stored (supreme_monitor adapter req st).2 req = C)
  /\ (forall e w,
      adapter (monitor_call req) (world st) = (Raise e, w) ->
      stored (supreme_monitor adapter req st).2 req = stored st req)
  /\ (forall e,
      (supreme_monitor adapter req st).1 = Raise e ->
      files (supreme_monitor adapter req st).2 = files st
      /\ stored (supreme_monitor adapter req st).2 req = stored st req).
Proof.
  split; [|split].
  - intros C w resp H Hresp.
    by destruct (supreme_monitor_after _ _ _ _ _ H Hresp).
  - intros e w H. by rewrite (supreme_monitor_raise _ _ _ _ H).
  - intros e He.
    assert (Hf : files (supreme_monitor adapter req st).2 = files st).
    { destruct (supreme_monitor_effect req st)
        as [[-> _]|(C & w & resp & _ & _ & _ & Hresp & _)]; [done|].
      congruence. }
    split; [done|]. unfold stored. by rewrite Hf.
Qed.

(** X10. Two polls in a row, the first of which returned.  The second
    poll depends on the first scrape only, not on older snapshots: if the
    second scrape equals the first it reports no change and writes
    nothing; otherwise, when it returns, its new items are the records of
    the second scrape that the first scrape lacks, and it does return
    when the first scrape was not empty. *)
Theorem consecutive_polls req st C1 w1 C2 w2 resp1 :
  adapter (monitor_call req) (world st) = (Ret C1, w1) ->
  adapter (monitor_call req) w1 = (Ret C2, w2) ->
  (supreme_monitor adapter req st).1 = Ret resp1 ->
  let st1 := (supreme_monitor adapter req st).2 in
  let r2 := supreme_monitor adapter req st1 in
  (C2 = C1 ->
     (exists resp, r2.1 = Ret resp /\ status resp = "no_change"
                   /\ count resp = Some (List.length C1))
     /\ files r2.2 = files st1
     /\ events_of (supreme_monitor adapter req) st1
        = [EvCall (monitor_call req)])
  /\ (C2 <> C1 ->
        (forall resp,
            r2.1 = Ret resp ->
            status resp = "updated"
            /\ new_items resp = Some (filter (fun x => x ∉ C1) C2)
            /\ total resp = Some (List.length C2)
            /\ stored r2.2 req = C2)
        /\ (C1 <> [] -> exists resp, r2.1 = Ret resp))
  /\ (forall e, r2.1 = Raise e -> stored r2.2 req = C1).
Proof.
  intros H1 H2 Hresp1 st1 r2.
  destruct (supreme_monitor_after _ _ _ _ _ H1 Hresp1) as (Hst & Hw & Hd).
  fold st1 in Hst, Hw, Hd. rewrite <- Hw in H2. split; [|split].
  - intros ->. rewrite <- Hst in H2. subst r2.
    assert (Hr := supreme_monitor_same req st1 w2 H2 Hd).
    split; [|split].
    + rewrite Hr. eexists. split; [reflexivity|]. cbn. by rewrite Hst.
    + by rewrite Hr.
    + apply events_of_app. by rewrite Hr.
  - intros Hne. rewrite <- Hst in Hne. subst r2. split.
    + intros resp Hresp.
      destruct (supreme_monitor_after _ _ _ _ _ H2 Hresp) as (Hst2 & _).
      split; [|split; [|split]]; [| | |done];
        rewrite (supreme_monitor_run _ _ _ _ H2) in Hresp;
        rewrite decide_False in Hresp by congruence;
        rewrite Hst in Hresp;
        destruct (Fs.stat _ _); try discriminate Hresp;
        destruct (Fs.open_w _ _ _); try discriminate Hresp;
        by injection Hresp as <-.
    + intros HC1. rewrite <- Hst in HC1. apply stored_file in HC1.
      destruct (supreme_monitor_ends _ _ _ _ H2)
        as [(Hdir & _)|[(_ & ? & _)|[(_ & _ & _ & [resp ?] & _)
                                    |(_ & _ & Hc & _)]]].
      * by apply file_not_dir in HC1.
      * congruence.
      * exists resp. tauto.
      * apply can_write_existing in HC1. congruence.
  - intros e He. subst r2.
    destruct (supreme_monitor_effect req st1)
      as [[Hf _]|(C & w & resp & _ & _ & _ & Hresp & _)]; [|congruence].
    unfold stored in *. by rewrite Hf.
Qed.

Lemma filter_all_known (P C : list Rec) :
  (forall x, x ∈ C -> x ∈ P) -> filter (fun x => x ∉ P) C = [].
Proof.
  intros H. induction C as [|x C IH]; [done|].
  rewrite filter_cons_False.
  - apply IH. intros y Hy. apply H. by right.
  - intros Hx. apply Hx, H. by left.
Qed.

Lemma filter_none_known (C : list Rec) : filter (fun x => x ∉ []) C = C.
Proof.
  induction C as [|x C IH]; [done|].
  rewrite filter_cons_True by apply not_elem_of_nil. by rewrite IH.
Qed.

(** X11. An update can carry no new item.  When the scrape differs from
    the snapshot but holds only records of the snapshot (records were
    dropped, repeated or reordered upstream, or the scrape came back
    empty), the poll still reports "updated", with an empty list of new
    items, and replaces the snapshot by the scrape. *)
Theorem update_without_new_items req st C w :
  adapter (monitor_call req) (world st) = (Ret C, w) ->
  C <> stored st req ->
  (forall x, x ∈ C -> x ∈ stored st req) ->
  let r := supreme_monitor adapter req st in
  (exists resp, r.1 = Ret resp /\ status resp = "updated"
                /\ message resp = "New judgments found"
                /\ new_items resp = Some []
                /\ total resp = Some (List.length C))
  /\ files r.2 !! snapshot_path (keyword req) (mode req) = Some C.
Proof.
  intros H Hne Hsub r. subst r.
  assert (Hfile : stored st req <> []).
  { intros Hnil. rewrite Hnil in Hne, Hsub. destruct C as [|x C]; [done|].
    by apply (not_elem_of_nil x), Hsub, list_elem_of_here. }
  apply stored_file in Hfile.
  destruct (proj1 (can_write_spec _ _ C) (can_write_existing _ _ _ Hfile))
    as [fs Hw].
  rewrite (supreme_monitor_changed _ _ _ _ _ H Hne Hw
             (file_not_dir _ _ _ Hfile)).
  split.
  - eexists. split; [reflexivity|]. cbn.
    by rewrite (filter_all_known _ _ Hsub).
  - cbn. by apply (lookup_open_w (files st)).
Qed.

(** X12. On the first poll for a key (no snapshot file yet) with a
    non-empty scrape, every scraped record is reported as new, in the
    order of the scrape, provided the snapshot file can be created; when
    it cannot, the poll raises and no snapshot is left behind. *)
Theorem first_poll_all_new req st C w :
  adapter (monitor_call req) (world st) = (Ret C, w) ->
  files st !! snapshot_path (keyword req) (mode req) = None ->
  C <> [] ->
  let r := supreme_monitor adapter req st in
  (Fs.can_write (files st) (snapshot_path (keyword req) (mode req)) = true ->
     exists resp,
       r.1 = Ret resp
       /\ status resp = "updated"
       /\ new_items resp = Some C
       /\ total resp = Some (List.length C))
  /\ (Fs.can_write (files st) (snapshot_path (keyword req) (mode req))
      = false ->
      (exists e, r.1 = Raise e)
      /\ files r.2 !! snapshot_path (keyword req) (mode req) = None).
Proof.
  intros H Hnone Hne r. subst r.
  assert (Hst : stored st req = []) by (unfold stored; by rewrite Hnone).
  rewrite <- Hst in Hne.
  destruct (supreme_monitor_ends _ _ _ _ H)
    as [(Hd & He & Hr)|[(_ & ? & _)|[Hupd|(_ & _ & Hc & He & Hr)]]];
    [|congruence|..].
  - apply stat_dir_cannot_write in Hd. split; [congruence|].
    intros _. by rewrite Hr.
  - destruct Hupd as (Hd & _ & Hc & _ & Hw & _). split; [|congruence].
    intros _. rewrite (supreme_monitor_changed _ _ _ _ _ H Hne Hw Hd).
    eexists. split; [reflexivity|]. cbn. by rewrite Hst, filter_none_known.
  - split; [congruence|]. intros _. by rewrite Hr.
Qed.

(** X13. White space around the keyword and the optional year play no
    part in a top-court poll: the poll for a keyword is the poll for the
    stripped keyword, call, snapshot file and response alike.  The
    regional status monitor likewise only sees the stripped keyword. *)
Theorem keyword_is_stripped k md y y' st :
  supreme_monitor adapter {| keyword := k; mode := md; m_year := y |} st
  = supreme_monitor adapter
      {| keyword := PyStr.strip k; mode := md; m_year := y' |} st
  /\ delhi_monitor adapter {| keyword := k; mode := md; m_year := y |} st
     = delhi_monitor adapter
         {| keyword := PyStr.strip k; mode := md; m_year := y |} st.
Proof.
  unfold supreme_monitor, delhi_monitor. cbn [keyword mode m_year].
  by rewrite strip_idem.
Qed.

Lemma startswith_replace c x y s :
  Ascii.eqb c x = false -> Ascii.eqb c y = false ->
  PyStr.startswith c (PyStr.replace x y s) = PyStr.startswith c s.
Proof.
  intros Hx Hy. destruct s as [|a s]; [done|]. cbn.
  destruct (Ascii.eqb_spec a x) as [->|Hax].
  - rewrite Ascii.eqb_sym, Hy. by rewrite Ascii.eqb_sym, Hx.
  - done.
Qed.


(** X15. The snapshot file does not identify the key.  Moving an
    underscore-joined part from the end of the keyword to the front of
    the mode gives a different (keyword, mode) with the same snapshot
    file, so a poll for one key finds the snapshot of the other, and
    after a poll for one key that returned, a poll for the other finds
    that scrape. *)
Theorem snapshot_key_collision k m1 m2 :
  PyStr.strip k = k ->
  PyStr.strip (k +:+ "_" +:+ m1) = k +:+ "_" +:+ m1 ->
  PyStr.replace " " "_" m1 = m1 ->
  snapshot_path (k +:+ "_" +:+ m1) m2 = snapshot_path k (m1 +:+ "_" +:+ m2)
  /\ forall y st,
       let req1 := {| keyword := k +:+ "_" +:+ m1; mode := m2;
                      m_year := y |} in
       let req2 := {| keyword := k; mode := m1 +:+ "_" +:+ m2;
                      m_year := y |} in
       stored st req1 = stored st req2
       /\ forall C w resp,
            adapter (monitor_call req1) (world st) = (Ret C, w) ->
            (supreme_monitor adapter req1 st).1 = Ret resp ->
            stored (supreme_monitor adapter req1 st).2 req2 = C.
Proof.
  intros Hk Hkm Hm1.
  assert (Hpath : snapshot_path (k +:+ "_" +:+ m1) m2
                  = snapshot_path k (m1 +:+ "_" +:+ m2)).
  { unfold snapshot_path, monitor_filename. rewrite Hk, Hkm.
    rewrite !replace_app, Hm1. cbn [PyStr.replace].
    by rewrite !append_assoc. }
  split; [done|]. intros y st req1 req2. split.
  - subst req1 req2. unfold stored. cbn [keyword mode]. by rewrite Hpath.
  - intros C w resp H Hresp.
    destruct (supreme_monitor_after _ _ _ _ _ H Hresp) as [Hst _].
    subst req1 req2. unfold stored in *. cbn [keyword mode] in *.
    by rewrite <- Hpath.
Qed.

(** *** The regional status monitor and the commission search *)

(** X16. The regional status monitor is stateless: it makes one scraper
    call, returns the scraper's list (the empty list when the scraper
    raised), never raises, leaves the snapshot store as it was and does
    not depend on it. *)
Theorem delhi_monitor_stateless req st :
  let c := {| target := delhi_high_court; entry := ep_monitor;
              args := [PStr (PyStr.strip (keyword req));
                       of_optional (m_year req); PStr (mode req);
                       PBool true] |} in
  let r := delhi_monitor adapter req st in
  r.1 = Ret (contribution (adapter c (world st)).1)
  /\ files r.2 = files st
  /\ events_of (delhi_monitor adapter req) st = [EvCall c]
  /\ forall st', world st' = world st ->
                 (delhi_monitor adapter req st').1 = r.1.
Proof.
  intros c r.
  assert (Hrun : forall st0,
             delhi_monitor adapter req st0
             = (Ret (contribution (adapter c (world st0)).1),
                {| world := (adapter c (world st0)).2; files := files st0;
                   trace := trace st0 ++ [EvCall c] |})).
  { intros st0. unfold delhi_monitor, try_except, invoke, ret, log.
    fold c. by destruct (adapter c (world st0)) as [[l|e] w]. }
  subst r. rewrite Hrun. split; [done|]. split; [done|]. split.
  - apply events_of_app. by rewrite Hrun.
  - intros st' Hw. rewrite Hrun. cbn. by rewrite Hw.
Qed.

(** X17. Every response of the commission search carries a count equal
    to the number of its results, on the success path and on the failure
    path alike; the search makes one scraper call and leaves the snapshot
    store as it was. *)
Theorem cerc_search_count req st resp :
  (cerc_search adapter req st).1 = Ret resp ->
  c_count resp = List.length (results resp)
  /\ results resp
     = contribution
         (adapter {| target := cerc; entry := ep_search;
                     args := [PStr (month req); PStr (party req)] |}
                  (world st)).1
  /\ files (cerc_search adapter req st).2 = files st
  /\ called (events_of (cerc_search adapter req) st) = [cerc].
Proof.
  unfold events_of, cerc_search, try_except, bind, invoke, ret, log.
  destruct (adapter _ (world st)) as [[l|e] w]; cbn.
  - intros [= <-]. cbn. rewrite drop_app_length. done.
  - intros [= <-]. cbn. rewrite drop_app_length. done.
Qed.

(** *** The saved-monitor listing *)

#[local] Instance str_le_total : Total str_le.
Proof. intros a b. apply String.leb_total. Qed.

Lemma saved_monitors_elem st l f :
  (list_saved_monitors st).1 = Ret l ->
  f ∈ l <-> PyStr.endswith_str ".json" f = true
            /\ exists path, is_Some (files st !! path)
                            /\ dir_entry DATA_DIR path = Some f.
Proof.
  unfold list_saved_monitors. cbn. intros [= <-].
  rewrite merge_sort_Permutation, list_elem_of_filter. split.
  - intros [Hjson Hin]. split; [done|]. by apply listed_iff.
  - intros [Hjson Hin]. split; [done|]. by apply listed_iff.
Qed.

(** X18. The saved-monitor listing is sorted by code point, without
    repetition, holds exactly the names ending in ".json" that lie
    directly under the data directory, and leaves the state as it was. *)
Theorem saved_monitors_listing (st : State Rec World) l :
  (list_saved_monitors st).1 = Ret l ->
  Sorted str_le l
  /\ NoDup l
  /\ (forall f, f ∈ l <-> PyStr.endswith_str ".json" f = true
                          /\ exists path,
                               is_Some (files st !! path)
                               /\ dir_entry DATA_DIR path = Some f)
  /\ (list_saved_monitors st).2 = st.
Proof.
  intros H. split; [|split; [|split]].
  - unfold list_saved_monitors in H. cbn in H. injection H as <-.
    apply Sorted_merge_sort, _.
  - unfold list_saved_monitors in H. cbn in H. injection H as <-.
    rewrite merge_sort_Permutation.
    apply NoDup_filter, NoDup_remove_dups.
  - intros f. by apply saved_monitors_elem.
  - done.
Qed.

Lemma monitor_file_entry k md :
  PyStr.contains "/" (PyStr.strip k) = false ->
  PyStr.contains "/" md = false ->
  dir_entry DATA_DIR (snapshot_path k md)
  = Some (monitor_filename (PyStr.strip k) md)
  /\ PyStr.endswith_str ".json" (monitor_filename (PyStr.strip k) md) = true.
Proof.
  intros Hk Hmd.
  destruct (monitor_filename_plain _ _ Hk Hmd) as [Hname Hjson].
  destruct (snapshot_path_plain _ _ Hk Hmd) as [-> _].
  split; [|done]. unfold dir_entry.
  change (DATA_DIR +:+ String "/" (monitor_filename (PyStr.strip k) md))
    with ((DATA_DIR +:+ "/") +:+ monitor_filename (PyStr.strip k) md).
  rewrite strip_prefix_app, first_component_id by done.
  unfold monitor_filename.
  by destruct (PyStr.replace " " "_" (PyStr.strip k)).
Qed.

(** X19. After a poll that reported an update, for a key whose stripped
    keyword and mode hold no "/", the file named in the response appears
    in the saved-monitor listing. *)
Theorem updated_poll_is_listed req st C w resp l :
  adapter (monitor_call req) (world st) = (Ret C, w) ->
  C <> stored st req ->
  PyStr.contains "/" (PyStr.strip (keyword req)) = false ->
  PyStr.contains "/" (mode req) = false ->
  (supreme_monitor adapter req st).1 = Ret resp ->
  (list_saved_monitors (supreme_monitor adapter req st).2).1 = Ret l ->
  status resp = "updated" /\ file resp ∈ l.
Proof.
  intros H Hne Hk Hmd Hresp Hl.
  destruct (monitor_file_entry _ _ Hk Hmd) as [Hentry Hjson].
  apply (saved_monitors_elem _ _ (file resp)) in Hl.
  destruct (supreme_monitor_ends _ _ _ _ H)
    as [(_ & [e He] & _)|[(_ & ? & _)|[Hupd|(_ & _ & _ & [e He] & _)]]];
    try congruence.
  destruct Hupd as (Hd & _ & _ & _ & Hw & _).
  rewrite (supreme_monitor_changed _ _ _ _ _ H Hne Hw Hd) in Hresp.
  cbn in Hresp. injection Hresp as <-. cbn [status file]. split; [done|].
  apply Hl. split; [done|].
  exists (snapshot_path (keyword req) (mode req)). split; [|done].
  apply (lookup_open_w (files st)) in Hw. by eexists.
Qed.

(** X20. A poll never takes a name off the saved-monitor listing,
    whatever its scrape returns or raises. *)
Theorem poll_keeps_listing req st l l' f :
  (list_saved_monitors st).1 = Ret l ->
  (list_saved_monitors (supreme_monitor adapter req st).2).1 = Ret l' ->
  f ∈ l -> f ∈ l'.
Proof.
  intros Hl Hl' Hf.
  apply (saved_monitors_elem _ _ f) in Hl, Hl'.
  apply Hl in Hf as (Hjson & path & Hsome & Hentry).
  apply Hl'. split; [done|]. exists path. split; [|done].
  by eapply lookup_mono; [apply supreme_monitor_extends|].
Qed.

(** X21. When a range search calls no scraper at all: exactly when the
    court is none of the five selectors, or the court is "nclat" and the
    tribunal helper rejects the start date or the end date.  There is no
    guard on empty dates: the other courts are always called. *)
Theorem range_search_silent request st :
  events_of (search_cases_range adapter request) st = []
  <-> r_court request ∉ ["supreme"; "delhi"; "bombay"; "nclat"; "all"]
      \/ (r_court request = "nclat"
          /\ (is_ret (convert_date_for_nclat (startDate request)) = false
              \/ is_ret (convert_date_for_nclat (endDate request)) = false)).
Proof.
  rewrite search_cases_range_events. split.
  - intros H. apply fmap_nil_inv in H.
    destruct (decide (r_court request
                        ∈ ["supreme"; "delhi"; "bombay"; "nclat"; "all"]))
      as [Hin|Hout]; [|by left]. right.
    unfold plan_range in H.
    destruct request as [p ds de ct].
    cbn [r_court startDate endDate r_partyName] in *.
    repeat (apply elem_of_cons in Hin as [->|Hin];
            [cbn -[convert_date_for_delhi convert_date_for_bombay
                   convert_date_for_nclat] in H;
             try discriminate H|]).
    + split; [done|].
      destruct (convert_date_for_nclat ds); [|by left].
      destruct (convert_date_for_nclat de); [done|by right].
    + by apply elem_of_nil in Hin.
  - intros [Hout|[Hc Hbad]].
    + by rewrite plan_range_unknown.
    + unfold plan_range. rewrite Hc. cbn -[convert_date_for_nclat].
      destruct Hbad as [Hbad|Hbad].
      * by destruct (convert_date_for_nclat (startDate request)).
      * destruct (convert_date_for_nclat (startDate request)); [|done].
        by destruct (convert_date_for_nclat (endDate request)).
Qed.

End AppFacts.

(** ** The theorems at work on concrete requests *)

(** Several spellings of one file, and a path into a directory that does
    not exist. *)
Example one_file_many_paths :
  sample_store !! "monitor_data/acme_corp_party.json" = Some [rec_a; rec_b]
  /\ sample_store !! "monitor_data/./acme_corp_party.json"
     = Some [rec_a; rec_b]
  /\ sample_store !! "monitor_data//acme_corp_party.json"
     = Some [rec_a; rec_b]
  /\ sample_store !! "downloaded_judgments/../monitor_data/acme_corp_party.json"
     = Some [rec_a; rec_b]
  /\ sample_store !! "/srv/casepulse/monitor_data/acme_corp_party.json"
     = Some [rec_a; rec_b]
  /\ Fs.stat sample_store "monitor_data" = Fs.Dir
  /\ Fs.can_write sample_store "monitor_data/new_party.json" = true
  /\ Fs.can_write sample_store "monitor_data/a/b_party.json" = false
  /\ Fs.can_write sample_store "monitor_data" = false.
Proof. repeat split; vm_compute; reflexivity. Qed.



Lemma convert_date_for_nclat_idempotent_witness :
  convert_date_for_nclat "2023-12-31" = Ret "31/12/2023"
  /\ convert_date_for_nclat "31/12/2023" = Ret "31/12/2023".
Proof.
  split; [reflexivity|].
  apply (proj2 (proj2 (proj2 convert_date_for_nclat_idempotent))
           "2023-12-31" "31/12/2023").
  reflexivity.
Defined.

Lemma dispatch_failure_isolation_witness :
  (search_cases Outage.adapter iso_all Outage.init).1 = Ret []
  /\ (search_cases_range Outage.adapter
        {| r_partyName := "acme"; startDate := "2024-03-05";
           endDate := "2024-03-09"; r_court := "all" |} Outage.init).1
     = Ret [].
Proof.
  apply (proj2 (proj2 (proj2 (dispatch_failure_isolation Outage.adapter)))).
  intros c w. exists (AdapterError "unreachable"), w. reflexivity.
Defined.

Lemma dispatch_dates_witness :
  events_of (search_cases Script.adapter iso_all) (Script.init [] ∅)
  = [EvCall (search_call supreme_court "acme" "2024-03-05");
     EvCall (search_call delhi_high_court "acme" "05.03.2024");
     EvCall (search_call bombay_high_court "acme" "05-03-2024")].
Proof.
  apply (proj1 (proj1 (dispatch_dates Script.adapter "acme"
                         (Script.init [] ∅)) "2024-03-05" ltac:(discriminate)));
    reflexivity.
Defined.

(** With court "nclat" the scraper does not receive the date as given. *)
Lemma dispatch_dates_counterexample :
  ~ (forall c,
        EvCall c ∈ events_of (search_cases Script.adapter iso_nclat)
                     (Script.init [] ∅) ->
        PStr "2024-03-05" ∈ args c).
Proof.
  intros H.
  specialize (H (range_call nclat "acme" "05/03/2024" "05/03/2024")).
  assert (E : events_of (search_cases Script.adapter iso_nclat)
                (Script.init [] ∅)
              = [EvCall (range_call nclat "acme" "05/03/2024" "05/03/2024")])
    by (vm_compute; reflexivity).
  rewrite E in H. specialize (H (list_elem_of_here _ _)).
  cbn in H.
  repeat (apply elem_of_cons in H as [H|H]; [discriminate H|]).
  by apply elem_of_nil in H.
Qed.

Lemma single_date_entry_points_witness :
  events_of (search_cases Script.adapter iso_nclat) (Script.init [] ∅)
  = [EvCall (range_call nclat "acme" "05/03/2024" "05/03/2024")]
  /\ events_of (search_cases Script.adapter iso_all) (Script.init [] ∅)
     = [EvCall (search_call supreme_court "acme" "2024-03-05");
        EvCall (search_call delhi_high_court "acme" "05.03.2024");
        EvCall (search_call bombay_high_court "acme" "05-03-2024")]
  /\ events_of (search_cases Script.adapter
                  {| partyName := "acme"; date := Some "05.03.2024";
                     court := "delhi" |}) (Script.init [] ∅)
     = [EvCall (search_call delhi_high_court "acme" "05.03.2024")].
Proof.
  split; [|split].
  - apply (proj1 (proj2 (proj2 (single_date_entry_points Script.adapter
                                  iso_nclat (Script.init [] ∅))))
             "2024-03-05" "05/03/2024");
      [reflexivity | discriminate | reflexivity | reflexivity].
  - apply (proj2 (proj2 (proj2 (proj2
             (single_date_entry_points Script.adapter iso_all
                (Script.init [] ∅)))))
             "2024-03-05");
      [reflexivity | discriminate | reflexivity].
  - apply (proj1 (proj2 (proj2 (proj2
             (single_date_entry_points Script.adapter
                {| partyName := "acme"; date := Some "05.03.2024";
                   court := "delhi" |}
                (Script.init [] ∅)))))
             "05.03.2024" delhi_high_court "delhi");
      [reflexivity | discriminate | | reflexivity].
    apply list_elem_of_further, list_elem_of_here.
Defined.

(** A single-date request for "nclat" is sent to [search_range]. *)
Lemma single_date_entry_points_counterexample :
  ~ (forall c,
        EvCall c ∈ events_of (search_cases Script.adapter iso_nclat)
                     (Script.init [] ∅) ->
        entry c = ep_search).
Proof.
  intros H.
  specialize (H (range_call nclat "acme" "05/03/2024" "05/03/2024")).
  assert (E : events_of (search_cases Script.adapter iso_nclat)
                (Script.init [] ∅)
              = [EvCall (range_call nclat "acme" "05/03/2024" "05/03/2024")])
    by (vm_compute; reflexivity).
  rewrite E in H. specialize (H (list_elem_of_here _ _)).
  discriminate H.
Qed.

Lemma backend_failure_shapes_witness :
  (cerc_search Script.adapter {| month := "2024-03"; party := "acme" |}
     (Script.init [Script.down] ∅)).1
  = Ret {| results := []; c_count := 0 |}.
Proof.
  apply (proj1 (proj2 (backend_failure_shapes Script.adapter))
           {| month := "2024-03"; party := "acme" |}
           (Script.init [Script.down] ∅) (AdapterError "timeout") []).
  reflexivity.
Defined.

(** When its scraper raises, the top-court monitor raises too. *)
Lemma backend_failure_shapes_counterexample :
  ~ (exists resp,
        (supreme_monitor Script.adapter acme_poll
           (Script.init [Script.down] ∅)).1 = Ret resp).
Proof.
  intros [resp H]. vm_compute in H. discriminate H.
Qed.





Lemma snapshot_key_witness :
  snapshot_path "  acme corp" "party" = snapshot_path "acme_corp " "party"
  /\ stored (supreme_monitor Script.adapter
               {| keyword := "  acme corp"; mode := "party";
                  m_year := None |}
               (Script.init [Ret [rec_c]] sample_store)).2
       {| keyword := "acme_corp "; mode := "party"; m_year := None |}
     = [rec_c].
Proof.
  split.
  - apply (proj1 (proj2 (proj2 (snapshot_key Script.adapter)))
             "  acme corp" "acme_corp " "party").
    reflexivity.
  - refine (proj2 (proj2 (proj2 (proj2 (snapshot_key Script.adapter)))
                     "  acme corp" "acme_corp " "party" None None
                     (Script.init [Ret [rec_c]] sample_store) eq_refl)
              [rec_c] []
              {| status := "updated"; message := "New judgments found";
                 new_items := Some [rec_c]; total := Some 1;
                 count := None; file := "acme_corp_party.json" |}
              eq_refl _).
    vm_compute. reflexivity.
Defined.

(** A leading space is stripped, a leading underscore is kept. *)
Lemma snapshot_key_counterexample :
  space_underscore_equal " a" "_a"
  /\ snapshot_path " a" "party" = "monitor_data/a_party.json"
  /\ snapshot_path "_a" "party" = "monitor_data/_a_party.json"
  /\ snapshot_path " a" "party" <> snapshot_path "_a" "party".
Proof.
  split; [reflexivity|]. split; [reflexivity|]. split; [reflexivity|].
  discriminate.
Qed.

Lemma unknown_court_no_dispatch_witness :
  search_cases Script.adapter cerc_single (Script.init [Ret [rec_a]] ∅)
  = (Ret [], Script.init [Ret [rec_a]] ∅).
Proof.
  refine (proj1 (proj1 (unknown_court_no_dispatch Script.adapter)
                   cerc_single (Script.init [Ret [rec_a]] ∅) _)).
  intros H.
  repeat (apply elem_of_cons in H as [H|H]; [discriminate H|]).
  by apply elem_of_nil in H.
Defined.

(** ** The further properties on concrete inputs *)

Lemma converters_agree_witness :
  convert_date_for_bombay "2024-3-5" = Ret "05-03-2024"
  /\ convert_date_for_nclat "2024-3-5" = Ret "05/03/2024".
Proof.
  split.
  - exact (proj1 (converters_agree "2024-3-5" "05.03.2024" eq_refl)).
  - exact (proj1 (proj2 (converters_agree "2024-3-5" "05.03.2024" eq_refl))).
Defined.

Lemma high_court_helpers_reject_outputs_witness :
  is_ret (convert_date_for_delhi "05-03-2024") = false
  /\ is_ret (convert_date_for_bombay "05-03-2024") = false.
Proof.
  apply (proj1 (high_court_helpers_reject_outputs "2024-03-05" "05-03-2024")).
  right. left. reflexivity.
Defined.

Lemma nclat_after_bombay_witness :
  convert_date_for_nclat "29-02-2024" = Ret "29/02/2024".
Proof.
  exact (proj1 (nclat_after_bombay "2024-2-29" "29-02-2024" eq_refl eq_refl)).
Defined.

Lemma convert_date_for_nclat_errors_witness :
  PyStr.contains "-" "1-" = true /\ String.length "1-" < 3.
Proof.
  apply (proj1 (proj2 (convert_date_for_nclat_errors "1-"
                         (IndexError "string index out of range") eq_refl))).
  by eexists.
Defined.

Lemma dispatch_leaves_store_witness :
  (search_cases Script.adapter iso_all
     (Script.init [Ret [rec_a]] sample_store)).1
  = (search_cases Script.adapter iso_all (Script.init [Ret [rec_a]] ∅)).1.
Proof.
  apply (proj2 (proj2 (proj1 (dispatch_leaves_store Script.adapter)
                         iso_all (Script.init [Ret [rec_a]] ∅)))).
  reflexivity.
Defined.

Lemma nclat_single_is_range_witness :
  search_cases Script.adapter iso_nclat (Script.init [Ret [rec_a]] ∅)
  = search_cases_range Script.adapter
      {| r_partyName := "acme"; startDate := "2024-03-05";
         endDate := "2024-03-05"; r_court := "nclat" |}
      (Script.init [Ret [rec_a]] ∅).
Proof.
  apply (nclat_single_is_range Script.adapter "acme" "2024-03-05").
  discriminate.
Defined.

Lemma single_search_silent_witness :
  events_of (search_cases Script.adapter junk_nclat)
    (Script.init [Ret [rec_a]] ∅) = [].
Proof.
  apply (proj2 (single_search_silent Script.adapter junk_nclat
                  (Script.init [Ret [rec_a]] ∅))).
  right. right. split; reflexivity.
Defined.

Lemma snapshot_is_latest_scrape_witness :
  stored (supreme_monitor Script.adapter acme_poll
            (Script.init [Ret [rec_c]] sample_store)).2 acme_poll
  = [rec_c].
Proof.
  refine (proj1 (snapshot_is_latest_scrape Script.adapter acme_poll
                   (Script.init [Ret [rec_c]] sample_store)) [rec_c] []
            {| status := "updated"; message := "New judgments found";
               new_items := Some [rec_c]; total := Some 1;
               count := None; file := "acme_corp_party.json" |}
            eq_refl _).
  vm_compute. reflexivity.
Defined.

Lemma consecutive_polls_witness :
  let st1 := (supreme_monitor Script.adapter first_poll
                (Script.init [Ret [rec_a; rec_b]; Ret [rec_a; rec_b]] ∅)).2 in
  files (supreme_monitor Script.adapter first_poll st1).2 = files st1.
Proof.
  intros st1.
  refine (proj1 (proj2 (proj1
            (consecutive_polls Script.adapter first_poll
               (Script.init [Ret [rec_a; rec_b]; Ret [rec_a; rec_b]] ∅)
               [rec_a; rec_b] [Ret [rec_a; rec_b]]
               [rec_a; rec_b] []
               {| status := "updated"; message := "New judgments found";
                  new_items := Some [rec_a; rec_b]; total := Some 2;
                  count := None; file := "acme_party.json" |}
               eq_refl eq_refl _) eq_refl))).
  vm_compute. reflexivity.
Defined.

(** A scrape that comes back empty while a snapshot exists. *)
Lemma update_without_new_items_witness :
  files (supreme_monitor Script.adapter acme_poll
           (Script.init [Ret []] sample_store)).2 !! acme_file = Some [].
Proof.
  refine (proj2 (update_without_new_items Script.adapter acme_poll
                   (Script.init [Ret []] sample_store) [] [] eq_refl _ _)).
  - intros E. vm_compute in E. discriminate E.
  - intros x Hx. by apply elem_of_nil in Hx.
Defined.

Lemma first_poll_all_new_witness :
  exists resp,
    (supreme_monitor Script.adapter first_poll
       (Script.init [Ret [rec_a; rec_b]] ∅)).1 = Ret resp
    /\ status resp = "updated"
    /\ new_items resp = Some [rec_a; rec_b]
    /\ total resp = Some 2.
Proof.
  refine (proj1 (first_poll_all_new Script.adapter first_poll
                   (Script.init [Ret [rec_a; rec_b]] ∅) [rec_a; rec_b] []
                   eq_refl eq_refl _) eq_refl).
  discriminate.
Defined.

Lemma snapshot_key_collision_witness :
  snapshot_path "acme_corp" "party" = snapshot_path "acme" "corp_party"
  /\ stored (supreme_monitor Script.adapter
               {| keyword := "acme_corp"; mode := "party"; m_year := None |}
               (Script.init [Ret [rec_c]] sample_store)).2
       {| keyword := "acme"; mode := "corp_party"; m_year := None |}
     = [rec_c].
Proof.
  split.
  - exact (proj1 (snapshot_key_collision Script.adapter "acme" "corp" "party"
                    eq_refl eq_refl eq_refl)).
  - refine (proj2 (proj2 (snapshot_key_collision Script.adapter
                            "acme" "corp" "party" eq_refl eq_refl eq_refl)
                     None (Script.init [Ret [rec_c]] sample_store))
              [rec_c] []
              {| status := "updated"; message := "New judgments found";
                 new_items := Some [rec_c]; total := Some 1;
                 count := None; file := "acme_corp_party.json" |}
              eq_refl _).
    vm_compute. reflexivity.
Defined.

Lemma delhi_monitor_stateless_witness :
  (delhi_monitor Script.adapter acme_poll
     (Script.init [Ret [rec_a]] sample_store)).1
  = (delhi_monitor Script.adapter acme_poll
       (Script.init [Ret [rec_a]] ∅)).1.
Proof.
  apply (proj2 (proj2 (proj2 (delhi_monitor_stateless Script.adapter
                                acme_poll (Script.init [Ret [rec_a]] ∅))))).
  reflexivity.
Defined.

Lemma cerc_search_count_witness :
  c_count {| results := [rec_a; rec_b]; c_count := 2 |}
  = List.length (results {| results := [rec_a; rec_b]; c_count := 2 |}).
Proof.
  refine (proj1 (cerc_search_count Script.adapter
                   {| month := "2024-03"; party := "acme" |}
                   (Script.init [Ret [rec_a; rec_b]] ∅) _ _)).
  reflexivity.
Defined.

Lemma saved_monitors_listing_witness :
  Sorted str_le ["acme_corp_party.json"; "zeta_party.json"].
Proof.
  refine (proj1 (saved_monitors_listing (World := Script.registry)
                   (Script.init [] sample_store) _ _)).
  vm_compute. reflexivity.
Defined.

Lemma updated_poll_is_listed_witness :
  "acme_party.json" ∈ ["acme_corp_party.json"; "acme_party.json";
                       "zeta_party.json"].
Proof.
  refine (proj2 (updated_poll_is_listed Script.adapter first_poll
                   (Script.init [Ret [rec_c]] sample_store) [rec_c] []
                   {| status := "updated"; message := "New judgments found";
                      new_items := Some [rec_c]; total := Some 1;
                      count := None; file := "acme_party.json" |}
                   _ eq_refl _ eq_refl eq_refl _ _)).
  - intros E. vm_compute in E. discriminate E.
  - vm_compute. reflexivity.
  - vm_compute. reflexivity.
Defined.

Lemma poll_keeps_listing_witness :
  "zeta_party.json" ∈ ["acme_corp_party.json"; "acme_party.json";
                       "zeta_party.json"].
Proof.
  refine (poll_keeps_listing Script.adapter first_poll
            (Script.init [Ret [rec_c]] sample_store)
            ["acme_corp_party.json"; "zeta_party.json"] _ _ _ _ _).
  - vm_compute. reflexivity.
  - vm_compute. reflexivity.
  - apply list_elem_of_further, list_elem_of_here.
Defined.

Lemma range_search_silent_witness :
  events_of (search_cases_range Script.adapter
               {| r_partyName := "acme"; startDate := "2024-03-05";
                  endDate := "next tuesday"; r_court := "nclat" |})
    (Script.init [Ret [rec_a]] ∅) = [].
Proof.
  apply (proj2 (range_search_silent Script.adapter
                  {| r_partyName := "acme"; startDate := "2024-03-05";
                     endDate := "next tuesday"; r_court := "nclat" |}
                  (Script.init [Ret [rec_a]] ∅))).
  right. split; [reflexivity|]. right. reflexivity.
Defined.
